(** * Diamond Store admin panel: the client-side logic, embedded and verified

    The admin panel is a set of React pages.  What they decide on their own
    is small: how a search string becomes a query parameter, when a handler
    talks to the API, which orders a list shows, and how the amount of a
    weekly reward row is rebuilt from description texts.  This file embeds
    those functions and proves what they do.

    Conventions of the embedding.
    - A JavaScript string is the list of its UTF-16 code units ([jsstring]).
      Literals are written [str "..."].
    - [parseInt] returns [option Z]: [None] is NaN, [Some z] the integer that
      was read (the Number the engine returns is the double nearest to it;
      comparing with 0 and 10000 is not affected by that rounding).
    - A handler is a function from the state of its page and the answers of
      its environment (what the user typed or confirmed, what the API
      replied) to the new state and the list of effects it performed, in
      order.  A call that the code does not await ([fetchData()] at the end
      of a handler) is run to its end in place. *)

From Stdlib Require Import ZArith NArith QArith Qround String Ascii List Bool Lia DecimalString.
From stdpp Require Import base option list gmap.

Local Open Scope N_scope.

(** ** JavaScript strings *)

Abbreviation jschar := N (only parsing).
Abbreviation jsstring := (list N) (only parsing).

Definition str (s : string) : jsstring :=
  map N_of_ascii (list_ascii_of_string s).

Definition jsstring_eqb (a b : jsstring) : bool := bool_decide (a = b).

(** A string is truthy when it is not empty. *)
Definition truthy (s : jsstring) : bool :=
  match s with [] => false | _ => true end.

(** WhiteSpace and LineTerminator code units of ECMAScript: what [trim],
    [parseInt] and the regular expression class [\s] skip. *)
Definition is_whitespace (c : jschar) : bool :=
  (c =? 9) || (c =? 10) || (c =? 11) || (c =? 12) || (c =? 13) || (c =? 32)
  || (c =? 160) || (c =? 5760) || ((8192 <=? c) && (c <=? 8202))
  || (c =? 8232) || (c =? 8233) || (c =? 8239) || (c =? 8287)
  || (c =? 12288) || (c =? 65279).

Fixpoint trimStart (s : jsstring) : jsstring :=
  match s with
  | c :: s' => if is_whitespace c then trimStart s' else s
  | [] => []
  end.

Definition trimEnd (s : jsstring) : jsstring :=
  reverse (trimStart (reverse s)).

Definition trim (s : jsstring) : jsstring := trimEnd (trimStart s).

Fixpoint startsWith (s sub : jsstring) : bool :=
  match sub, s with
  | [], _ => true
  | _ :: _, [] => false
  | a :: sub', c :: s' => (a =? c) && startsWith s' sub'
  end.

(** [s.includes(sub)] *)
Fixpoint includes (s sub : jsstring) : bool :=
  startsWith s sub ||
  match s with
  | [] => false
  | _ :: s' => includes s' sub
  end.

Definition is_digit (c : jschar) : bool := (48 <=? c) && (c <=? 57).

(** ** parseInt (no radix argument) *)

(** Value of a code unit as a digit of the given radix, if it is one. *)
Definition digit_value (radix : Z) (c : jschar) : option Z :=
  let v :=
    if is_digit c then Some (Z.of_N c - 48)%Z
    else if (97 <=? c) && (c <=? 122) then Some (Z.of_N c - 87)%Z
    else if (65 <=? c) && (c <=? 90) then Some (Z.of_N c - 55)%Z
    else None in
  match v with
  | Some d => if (d <? radix)%Z then Some d else None
  | None => None
  end.

(** Reads the longest prefix of digits; [acc] is [None] until a digit was
    read. *)
Fixpoint parse_digits (radix : Z) (s : jsstring) (acc : option Z) : option Z :=
  match s with
  | c :: s' =>
      match digit_value radix c with
      | Some d => parse_digits radix s' (Some (radix * default 0%Z acc + d)%Z)
      | None => acc
      end
  | [] => acc
  end.

(** The sign a number text starts with, and the text after it. *)
Definition read_sign (s : jsstring) : Z * jsstring :=
  match s with
  | c :: r => if c =? 45 then ((-1)%Z, r)
              else if c =? 43 then (1%Z, r) else (1%Z, s)
  | [] => (1%Z, s)
  end.

(** The radix: 16 after a prefix [0x] or [0X], which is dropped, else 10. *)
Definition read_radix (s : jsstring) : Z * jsstring :=
  match s with
  | c0 :: x :: r =>
      if (c0 =? 48) && ((x =? 120) || (x =? 88)) then (16%Z, r)
      else (10%Z, s)
  | _ => (10%Z, s)
  end.

Definition parseInt (input : jsstring) : option Z :=
  let '(sign, s1) := read_sign (trimStart input) in
  let '(radix, s2) := read_radix s1 in
  match parse_digits radix s2 None with
  | Some m => Some (sign * m)%Z
  | None => None
  end.

(** [isNaN(n)] for a result of [parseInt]. *)
Definition isNaN (n : option Z) : bool :=
  match n with None => true | Some _ => false end.

(** [n > k], [n < k], [n <= k]: every comparison with NaN is false. *)
Definition num_gt (n : option Z) (k : Z) : bool :=
  match n with Some z => (k <? z)%Z | None => false end.
Definition num_lt (n : option Z) (k : Z) : bool :=
  match n with Some z => (z <? k)%Z | None => false end.
Definition num_le (n : option Z) (k : Z) : bool :=
  match n with Some z => (z <=? k)%Z | None => false end.

(** ** The query parameters of GET /users/transactions/all *)

Record Params := mkParams {
  limit : Z;
  userId : option Z;
  idNumber : option jsstring;
  email : option jsstring
}.

Definition params0 : Params := mkParams 500 None None None.

(** The test both pages use for a short numeric user id. *)
Definition is_short_user_id (query : jsstring) : bool :=
  let numValue := parseInt query in
  negb (isNaN numValue) && (length query <=? 3)%nat
  && num_gt numValue 0 && num_lt numValue 10000.

(** A string of decimal digits, and the number it denotes. *)
Definition is_numeric (s : jsstring) : bool :=
  truthy s && forallb is_digit s.

Definition decimal_value (s : jsstring) : Z :=
  fold_left (fun acc c => (10 * acc + (Z.of_N c - 48))%Z) s 0%Z.


(** ** What an API call gives back

    A call either resolves with its response, or rejects; a rejection may
    carry the error text of the server ([err.response?.data?.error]). *)

Inductive ApiResult (A : Type) : Type :=
| Resolved (response : A)
| Rejected (error : option jsstring).
Arguments Resolved {A} response.
Arguments Rejected {A} error.

(** [err.response?.data?.error || fallback] *)
Definition error_or (error : option jsstring) (fallback : jsstring) : jsstring :=
  match error with
  | Some m => if truthy m then m else fallback
  | None => fallback
  end.

Inductive ToastType := success | error | info.

Record ToastState := mkToast { message : jsstring; type : ToastType }.

(** What a transactions page does to the outside. *)
Inductive TransactionsEffect :=
| GetTransactions (params : Params)
| LogError (text : jsstring).

(** The parameters of the request a handler sent, if it sent one. *)
Definition requested {St : Type} (result : St * list TransactionsEffect)
    : option Params :=
  match result.2 with
  | GetTransactions params :: _ => Some params
  | _ => None
  end.

(** The transactions page with the receipt column.  [T] is the type of
    the rows, which [fetchTransactions] stores without looking at them. *)
Module TransactionsPage.

Record State (T : Type) := mkState {
  transactions : list T;
  loading : bool;
  toast : option ToastState;
  searchQuery : jsstring;
  selectedTransaction : option T;
  showReceiptModal : bool
}.
Arguments mkState {T}.
Arguments transactions {T}.
Arguments loading {T}.
Arguments toast {T}.
Arguments searchQuery {T}.
Arguments selectedTransaction {T}.
Arguments showReceiptModal {T}.

Definition setLoading {T} (b : bool) (st : State T) : State T :=
  mkState (transactions st) b (toast st) (searchQuery st)
    (selectedTransaction st) (showReceiptModal st).

Definition setTransactions {T} (l : list T) (st : State T) : State T :=
  mkState l (loading st) (toast st) (searchQuery st)
    (selectedTransaction st) (showReceiptModal st).

Definition showToast {T} (m : jsstring) (t : ToastType) (st : State T)
    : State T :=
  mkState (transactions st) (loading st) (Some (mkToast m t)) (searchQuery st)
    (selectedTransaction st) (showReceiptModal st).

(** The object [params] as [fetchTransactions] has filled it when it
    builds the query string. *)
Definition fetchTransactions_params (searchQuery : jsstring) : Params :=
  let params := params0 in
  if truthy (trim searchQuery) then
    let query := trim searchQuery in
    let numValue := parseInt query in
    if includes query (str "@") then
      mkParams (limit params) (userId params) (idNumber params) (Some query)
    else if is_short_user_id query then
      mkParams (limit params) numValue (idNumber params) (email params)
    else
      mkParams (limit params) (userId params) (Some query) (email params)
  else params.

(** [fetchTransactions]; [reply] is the answer to its GET, with
    [response.data.transactions] when it resolves. *)
Definition fetchTransactions {T} (reply : ApiResult (option (list T)))
    (st : State T) : State T * list TransactionsEffect :=
  let st1 := setLoading true st in
  let request := GetTransactions (fetchTransactions_params (searchQuery st1)) in
  match reply with
  | Resolved listed =>
      (setLoading false (setTransactions (default [] listed) st1), [request])
  | Rejected e =>
      (setLoading false
         (showToast (error_or e (str "Failed to load transactions")) error st1),
       [request; LogError (str "Failed to fetch transactions:")])
  end.

Definition searching {T} (query : jsstring) : State T :=
  mkState [] false None query None false.

End TransactionsPage.

(** The transactions page that refreshes itself every two seconds. *)
Module TransactionsPagePolling.

Record State (T : Type) := mkState {
  transactions : list T;
  loading : bool;
  toast : option ToastState;
  searchQuery : jsstring;
  autoRefreshing : bool
}.
Arguments mkState {T}.
Arguments transactions {T}.
Arguments loading {T}.
Arguments toast {T}.
Arguments searchQuery {T}.
Arguments autoRefreshing {T}.

Definition setLoading {T} (b : bool) (st : State T) : State T :=
  mkState (transactions st) b (toast st) (searchQuery st) (autoRefreshing st).

Definition setAutoRefreshing {T} (b : bool) (st : State T) : State T :=
  mkState (transactions st) (loading st) (toast st) (searchQuery st) b.

Definition setTransactions {T} (l : list T) (st : State T) : State T :=
  mkState l (loading st) (toast st) (searchQuery st) (autoRefreshing st).

Definition showToast {T} (m : jsstring) (t : ToastType) (st : State T)
    : State T :=
  mkState (transactions st) (loading st) (Some (mkToast m t)) (searchQuery st)
    (autoRefreshing st).

(** The object [params] as [fetchTransactions] and the timer fill it. *)
Definition fetchTransactions_params (searchQuery : jsstring) : Params :=
  let params := params0 in
  if truthy (trim searchQuery) then
    let query := trim searchQuery in
    let numValue := parseInt query in
    if is_short_user_id query then
      mkParams (limit params) numValue (idNumber params) (email params)
    else
      mkParams (limit params) (userId params) (Some query) (email params)
  else params.

Definition fetchTransactions {T} (reply : ApiResult (option (list T)))
    (st : State T) : State T * list TransactionsEffect :=
  let st1 := setLoading true st in
  let request := GetTransactions (fetchTransactions_params (searchQuery st1)) in
  match reply with
  | Resolved listed =>
      (setLoading false (setTransactions (default [] listed) st1), [request])
  | Rejected e =>
      (setLoading false
         (showToast (error_or e (str "Failed to load transactions")) error st1),
       [request; LogError (str "Failed to fetch transactions:")])
  end.

(** One tick of the [setInterval] callback. *)
Definition autoRefresh {T} (reply : ApiResult (option (list T)))
    (st : State T) : State T * list TransactionsEffect :=
  let st1 := setAutoRefreshing true st in
  let request := GetTransactions (fetchTransactions_params (searchQuery st1)) in
  match reply with
  | Resolved listed =>
      (setAutoRefreshing false (setTransactions (default [] listed) st1),
       [request])
  | Rejected e =>
      (setAutoRefreshing false st1,
       [request; LogError (str "Auto-refresh failed:")])
  end.

Definition searching {T} (query : jsstring) : State T :=
  mkState [] false None query false.

End TransactionsPagePolling.

(** Body of POST /users/{id}/points; [amount] is what [parseInt] read. *)
Record PointsBody := mkPointsBody {
  amount : option Z;
  description : jsstring
}.

Record AddPointsReceipt := mkReceipt {
  receipt_id : Z;
  receipt_user_id : Z;
  receiver_name : jsstring;
  receipt_amount : option Z;
  receipt_description : option jsstring;
  receipt_status : jsstring;
  receipt_created_at : jsstring;
  receipt_admin_name : option jsstring
}.

(** Response of POST /users/{id}/points: [balance_text] is the text that
    [response.data?.user?.points_balance] prints as in the toast. *)
Record PointsResponse := mkPointsResponse {
  balance_text : jsstring;
  receipt : option AddPointsReceipt
}.

Definition points_added_message (r : PointsResponse) : jsstring :=
  str "Points added successfully! New balance: " ++ balance_text r.

(** ** The dashboard page *)

Module Dashboard.

Record User := mkUser {
  user_key : Z;
  name : jsstring;
  nickname : option jsstring;
  user_email : option jsstring;
  id_number : jsstring
}.

Record Order := mkOrder {
  id : Z;
  order_number : jsstring;
  user_id : Z;
  parent_user_name : jsstring;
  parent_user_id_number : jsstring;
  parent_user_email : option jsstring;
  customer_name : option jsstring;
  client_imo_id : option jsstring;
  status : option jsstring
}.

(** [String.prototype.toUpperCase] and [toLowerCase] are the engine's; the
    page is embedded for any pair of them. *)
Class CaseMapping := {
  toUpperCase : jsstring -> jsstring;
  toLowerCase : jsstring -> jsstring
}.

(** The two statuses [handleOrderStatus] accepts. *)
Inductive StatusArg := COMPLETED | REJECTED.

(** [status.toLowerCase()] on the two literals. *)
Definition status_lower (s : StatusArg) : jsstring :=
  match s with COMPLETED => str "completed" | REJECTED => str "rejected" end.

(** What the page does to the outside, in the order it does it. *)
Inductive Effect :=
| Confirm (question : jsstring) (answer : bool)
| GetUsersPending
| GetUsersApproved
| GetOrdersPending
| GetOrdersRejected
| PatchOrderStatus (orderId : Z) (status : StatusArg)
| PostPoints (userId : Z) (body : PointsBody)
| PlayNotificationSound
| ShowSystemNotification (newCount : nat)
| ConsoleError (text : jsstring).

(** The state of the page that the embedded functions read or write, and
    the two refs of the new-order notification. *)
Record State := mkState {
  pendingUsers : list User;
  approvedUsers : list User;
  pendingOrders : list Order;
  rejectedOrders : list Order;
  loading : bool;
  pointsAmount : jsstring;
  pointsDescription : jsstring;
  searchQuery : jsstring;
  toast : option ToastState;
  lastOrderIds : gset Z;
  hasLoadedOrders : bool
}.

Definition setLoading (b : bool) (st : State) : State :=
  mkState (pendingUsers st) (approvedUsers st) (pendingOrders st)
    (rejectedOrders st) b (pointsAmount st) (pointsDescription st)
    (searchQuery st) (toast st) (lastOrderIds st) (hasLoadedOrders st).

Definition showToast (m : jsstring) (t : ToastType) (st : State) : State :=
  mkState (pendingUsers st) (approvedUsers st) (pendingOrders st)
    (rejectedOrders st) (loading st) (pointsAmount st) (pointsDescription st)
    (searchQuery st) (Some (mkToast m t)) (lastOrderIds st)
    (hasLoadedOrders st).

Definition setUsers (p a : list User) (st : State) : State :=
  mkState p a (pendingOrders st)
    (rejectedOrders st) (loading st) (pointsAmount st) (pointsDescription st)
    (searchQuery st) (toast st) (lastOrderIds st) (hasLoadedOrders st).

Definition setPendingOrders (l : list Order) (st : State) : State :=
  mkState (pendingUsers st) (approvedUsers st) l
    (rejectedOrders st) (loading st) (pointsAmount st) (pointsDescription st)
    (searchQuery st) (toast st) (lastOrderIds st) (hasLoadedOrders st).

Definition setRejectedOrders (l : list Order) (st : State) : State :=
  mkState (pendingUsers st) (approvedUsers st) (pendingOrders st)
    l (loading st) (pointsAmount st) (pointsDescription st)
    (searchQuery st) (toast st) (lastOrderIds st) (hasLoadedOrders st).

(** [lastOrderIdsRef.current = ids]; the first load also sets
    [hasLoadedOrdersRef.current], which is [true] ever after. *)
Definition setLastOrderIds (ids : gset Z) (st : State) : State :=
  mkState (pendingUsers st) (approvedUsers st) (pendingOrders st)
    (rejectedOrders st) (loading st) (pointsAmount st) (pointsDescription st)
    (searchQuery st) (toast st) ids true.

Definition setSearchQuery (q : jsstring) (st : State) : State :=
  mkState (pendingUsers st) (approvedUsers st) (pendingOrders st)
    (rejectedOrders st) (loading st) (pointsAmount st) (pointsDescription st)
    q (toast st) (lastOrderIds st) (hasLoadedOrders st).

Definition clearPointsForm (st : State) : State :=
  mkState (pendingUsers st) (approvedUsers st) (pendingOrders st)
    (rejectedOrders st) (loading st) [] []
    (searchQuery st) (toast st) (lastOrderIds st) (hasLoadedOrders st).

(** [getOrderStatus]: [(order.status || "").toUpperCase().trim()] *)
Definition getOrderStatus `{CaseMapping} (order : Order) : jsstring :=
  trim (toUpperCase (default [] (status order))).

Definition decimal_text (n : nat) : jsstring :=
  str (NilEmpty.string_of_uint (Nat.to_uint n)).

(** [applyPendingOrders]: stores the list as it came, then compares the
    ids with those of the previous load. *)
Definition applyPendingOrders (orders : list Order) (notify : bool)
    (st : State) : State * list Effect :=
  let st1 := setPendingOrders orders st in
  let currentIds : gset Z := list_to_set (map id orders) in
  if negb (hasLoadedOrders st1) then (setLastOrderIds currentIds st1, [])
  else
    let '(st2, tr) :=
      if notify then
        let newCount :=
          length (List.filter
                    (fun i => negb (bool_decide (i ∈ lastOrderIds st1)))
                    (elements currentIds)) in
        if (0 <? newCount)%nat then
          (showToast
             (if (newCount =? 1)%nat then str "New order received"
              else str "New orders received (" ++ decimal_text newCount
                   ++ str ")")
             info st1,
           [PlayNotificationSound; ShowSystemNotification newCount])
        else (st1, [])
      else (st1, []) in
    (setLastOrderIds currentIds st2, tr).

Record ListResponse := mkListResponse {
  users : option (list User);
  orders : option (list Order)
}.

(** The replies to the four requests of [fetchData]. *)
Record FetchReplies := mkReplies {
  pendingRes : ApiResult ListResponse;
  approvedRes : ApiResult ListResponse;
  ordersRes : ApiResult ListResponse;
  rejectedRes : ApiResult ListResponse
}.

Definition fetch_requests : list Effect :=
  [GetUsersPending; GetUsersApproved; GetOrdersPending; GetOrdersRejected].

(** [fetchData].  The statistics it also stores are read by no function
    embedded here and are left out. *)
Definition fetchData `{CaseMapping} (replies : FetchReplies) (st : State)
    : State * list Effect :=
  let st1 := setLoading true st in
  match pendingRes replies, approvedRes replies,
        ordersRes replies, rejectedRes replies with
  | Resolved p, Resolved a, Resolved o, Resolved r =>
      let st2 := setUsers (default [] (users p)) (default [] (users a)) st1 in
      let '(st3, tr) :=
        applyPendingOrders (default [] (orders o)) false st2 in
      let rejectedOnly :=
        List.filter
          (fun order => jsstring_eqb (getOrderStatus order) (str "REJECTED"))
          (default [] (orders r)) in
      let st4 := setRejectedOrders rejectedOnly st3 in
      (setLoading false st4, fetch_requests ++ tr)
  | _, _, _, _ =>
      let st2 :=
        showToast (str "Failed to refresh data. Please reload the page.")
          error st1 in
      (setLoading false st2,
       fetch_requests ++ [ConsoleError (str "Failed to fetch data:")])
  end.

(** [handleAddPoints(userId)] of the dashboard: the amount is the text of
    the form field [pointsAmount]. *)
Definition handleAddPoints `{CaseMapping} (userId : Z)
    (post : ApiResult PointsResponse) (replies : FetchReplies) (st : State)
    : State * list Effect :=
  let amount := parseInt (pointsAmount st) in
  if negb (truthy (pointsAmount st)) || isNaN amount || num_le amount 0 then
    (showToast (str "Please enter a valid amount") error st, [])
  else
    let descriptionValue :=
      if truthy (pointsDescription st) then pointsDescription st
      else str "Quick Store" in
    let request := PostPoints userId (mkPointsBody amount descriptionValue) in
    match post with
    | Resolved r =>
        let st1 := showToast (points_added_message r) success st in
        let st2 := clearPointsForm st1 in
        let '(st3, tr) := fetchData replies st2 in
        (st3, request :: tr)
    | Rejected e =>
        (showToast (error_or e (str "Failed to add points")) error st,
         [request; ConsoleError (str "Add points error:")])
    end.

Definition reject_question : jsstring :=
  str "Are you sure you want to reject this order? Points will be refunded.".

(** [handleOrderStatus(orderId, status)].  [confirm] is the user in front of
    the dialog; it is consulted only where the code calls [confirm(...)]. *)
Definition handleOrderStatus `{CaseMapping} (orderId : Z) (status : StatusArg)
    (confirm : jsstring -> bool) (patch : ApiResult unit)
    (replies : FetchReplies) (st : State) : State * list Effect :=
  let asked :=
    match status with
    | REJECTED => [Confirm reject_question (confirm reject_question)]
    | COMPLETED => []
    end in
  if match status with
     | REJECTED => negb (confirm reject_question)
     | COMPLETED => false
     end
  then (st, asked)
  else
    let request := PatchOrderStatus orderId status in
    match patch with
    | Resolved _ =>
        let st1 :=
          showToast (str "Order " ++ status_lower status
                     ++ str " successfully!") success st in
        let '(st2, tr) := fetchData replies st1 in
        (st2, asked ++ request :: tr)
    | Rejected e =>
        (showToast (error_or e (str "Failed to update order status")) error st,
         asked ++ [request])
    end.

Definition is_dialog (e : Effect) : bool :=
  match e with Confirm _ _ => true | _ => false end.

Definition is_patch (e : Effect) : bool :=
  match e with PatchOrderStatus _ _ => true | _ => false end.

(** [field && field.toLowerCase().includes(query)] *)
Definition field_matches `{CaseMapping} (field query : jsstring) : bool :=
  truthy field && includes (toLowerCase field) query.

Definition opt_field_matches `{CaseMapping} (field : option jsstring)
    (query : jsstring) : bool :=
  match field with
  | Some f => field_matches f query
  | None => false
  end.

Definition order_matches `{CaseMapping} (query : jsstring) (order : Order)
    : bool :=
  includes (toLowerCase (order_number order)) query
  || field_matches (parent_user_name order) query
  || field_matches (parent_user_id_number order) query
  || opt_field_matches (parent_user_email order) query
  || opt_field_matches (client_imo_id order) query.

Definition filteredOrders `{CaseMapping} (st : State) : list Order :=
  List.filter
    (fun order =>
       if negb (jsstring_eqb (getOrderStatus order) (str "PENDING")) then false
       else order_matches (toLowerCase (searchQuery st)) order)
    (pendingOrders st).

Definition filteredRejectedOrders `{CaseMapping} (st : State) : list Order :=
  List.filter
    (fun order =>
       if negb (jsstring_eqb (getOrderStatus order) (str "REJECTED")) then false
       else order_matches (toLowerCase (searchQuery st)) order)
    (rejectedOrders st).

(** The [reduce] that groups a list by [user_id]. *)
Definition groupByUser (l : list Order) : gmap Z (list Order) :=
  foldl (fun acc order =>
           <[user_id order := default [] (acc !! user_id order) ++ [order]]> acc)
        ∅ l.

Definition ordersByUser `{CaseMapping} (st : State) : gmap Z (list Order) :=
  groupByUser (filteredOrders st).

Definition rejectedOrdersByUser `{CaseMapping} (st : State)
    : gmap Z (list Order) :=
  groupByUser (filteredRejectedOrders st).

(** The order cards a tab draws: one block per entry of the grouping, one
    card per order of the block.  (The blocks come in the key order of
    [Object.entries]; which cards are drawn does not depend on it.) *)
Definition rendered (groups : gmap Z (list Order)) : list Order :=
  concat (map snd (map_to_list groups)).

Definition renderedPendingOrders `{CaseMapping} (st : State) : list Order :=
  rendered (ordersByUser st).

Definition renderedRejectedOrders `{CaseMapping} (st : State) : list Order :=
  rendered (rejectedOrdersByUser st).

(** Upper and lower case of the ASCII letters, other code units as they
    are: how the engine maps ASCII text. *)
Definition ascii_upper (c : jschar) : jschar :=
  if (97 <=? c) && (c <=? 122) then c - 32 else c.
Definition ascii_lower (c : jschar) : jschar :=
  if (65 <=? c) && (c <=? 90) then c + 32 else c.

Definition ascii_case : CaseMapping :=
  {| toUpperCase := map ascii_upper; toLowerCase := map ascii_lower |}.

(** The page as it is mounted, and an API that rejects every call. *)
Definition initial : State :=
  mkState [] [] [] [] true [] [] [] None ∅ false.

Definition offline : FetchReplies :=
  mkReplies (Rejected None) (Rejected None) (Rejected None) (Rejected None).

End Dashboard.

(** ** The user details page *)

Module UserDetails.

(** The fields of the loaded user that the receipt reads. *)
Record UserRow := mkUserRow {
  user_key : Z;
  name : jsstring
}.

Inductive Effect :=
| Prompt (question : jsstring) (answer : option jsstring)
| PostPoints (userId : jsstring) (body : PointsBody)
| FetchUserDetails.

Record State := mkState {
  user : option UserRow;
  toast : option ToastState;
  addPointsReceipt : option AddPointsReceipt
}.

Definition showToast (m : jsstring) (t : ToastType) (st : State) : State :=
  mkState (user st) (Some (mkToast m t)) (addPointsReceipt st).

Definition setAddPointsReceipt (r : AddPointsReceipt) (st : State) : State :=
  mkState (user st) (toast st) (Some r).

Definition amount_question : jsstring := str "Enter points amount:".
Definition description_question : jsstring :=
  str "Enter description (optional):".

(** [!amount || isNaN(parseInt(amount)) || parseInt(amount) <= 0] on what
    [prompt] returned ([None] when the dialog was cancelled). *)
Definition invalid_amount (amount : option jsstring) : bool :=
  match amount with
  | None => true
  | Some a =>
      negb (truthy a) || isNaN (parseInt a) || num_le (parseInt a) 0
  end.

(** [handleAddPoints()]: [prompt] is the user answering the dialogs, [now]
    the text of [new Date().toISOString()]. *)
Definition handleAddPoints (userId : jsstring)
    (prompt : jsstring -> option jsstring) (now : jsstring)
    (post : ApiResult PointsResponse) (st : State) : State * list Effect :=
  let amount := prompt amount_question in
  let asked1 := Prompt amount_question amount in
  if invalid_amount amount then
    (showToast (str "Please enter a valid amount") error st, [asked1])
  else
    let answer := prompt description_question in
    let asked2 := Prompt description_question answer in
    let descriptionValue :=
      match answer with
      | Some d => if truthy d then d else str "Admin added points"
      | None => str "Admin added points"
      end in
    let parsed := parseInt (default [] amount) in
    let request := PostPoints userId (mkPointsBody parsed descriptionValue) in
    match post with
    | Resolved r =>
        let st1 := showToast (points_added_message r) success st in
        let shown :=
          match receipt r with
          | Some rc => rc
          | None =>
              mkReceipt 0
                (match user st with Some u => user_key u | None => 0%Z end)
                (match user st with
                 | Some u => if truthy (name u) then name u else str "User"
                 | None => str "User"
                 end)
                parsed (Some descriptionValue) (str "SUCCESS") now None
          end in
        (setAddPointsReceipt shown st1, [asked1; asked2; request;
                                         FetchUserDetails])
    | Rejected e =>
        (showToast (error_or e (str "Failed to add points")) error st,
         [asked1; asked2; request])
    end.

(** A user who types [12abc] as the amount and cancels the description. *)
Definition types_12abc (question : jsstring) : option jsstring :=
  if jsstring_eqb question amount_question then Some (str "12abc") else None.

End UserDetails.

(** ** The login page *)

Module Login.

Record FormData := mkForm {
  idNumber : jsstring;
  password : jsstring
}.

Record LoginUser := mkLoginUser { role : jsstring }.

(** [response.data] of POST /auth/login.  A response without [user] makes
    [user.role] throw, which the handler catches like a failed call. *)
Record LoginResponse := mkLoginResponse {
  token : jsstring;
  user : option LoginUser
}.

Inductive Effect :=
| PostLogin (form : FormData)
| SetToken (token : jsstring)
| RouterPush (path : jsstring).

Record State := mkState {
  formData : FormData;
  loading : bool;
  error : jsstring
}.

Definition setError (e : jsstring) (st : State) : State :=
  mkState (formData st) (loading st) e.

Definition setLoading (b : bool) (st : State) : State :=
  mkState (formData st) b (error st).

(** [handleSubmit]; the [finally] block runs on every path. *)
Definition handleSubmit (post : ApiResult LoginResponse) (st : State)
    : State * list Effect :=
  let st1 := setLoading true (setError [] st) in
  let request := PostLogin (formData st1) in
  match post with
  | Resolved r =>
      match user r with
      | Some u =>
          if negb (jsstring_eqb (role u) (str "ADMIN")) then
            (setLoading false (setError (str "Admin access required") st1),
             [request])
          else
            (setLoading false st1,
             [request; SetToken (token r); RouterPush (str "/dashboard")])
      | None =>
          (setLoading false (setError (str "Login failed") st1), [request])
      end
  | Rejected e =>
      (setLoading false (setError (error_or e (str "Login failed")) st1),
       [request])
  end.




(** The empty form, and the response to an administrator. *)
Definition initial : State := mkState (mkForm [] []) false [].



End Login.

(** ** The rows of the transactions table

    Both transactions pages compute the amount of a row the same way.  The
    arithmetic is that of JavaScript numbers, which the pages take from the
    engine: the embedding is parametric in it ([JSNumber]). *)

Module TransactionRows.

Class JSNumber (number : Type) := {
  parseFloat : jsstring -> number;
  num_zero : number;
  num_hundred : number;
  num_sub : number -> number -> number;
  num_mul : number -> number -> number;
  num_div : number -> number -> number;
  Math_round : number -> number;
  (** [x > 0] *)
  num_positive : number -> bool;
  (** truthiness: neither 0 nor NaN *)
  num_truthy : number -> bool
}.

(** The [amount] of a row is declared a number; the page also accepts a
    text there, which it parses. *)
Inductive Amount (number : Type) : Type :=
| NumberAmount (n : number)
| TextAmount (s : jsstring).
Arguments NumberAmount {number} n.
Arguments TextAmount {number} s.

Record Transaction (number : Type) := mkTransaction {
  id : Z;
  user_id : Z;
  amount : Amount number;
  transaction_type : jsstring;
  description : option jsstring;
  created_at : jsstring
}.
Arguments mkTransaction {number}.
Arguments id {number}.
Arguments user_id {number}.
Arguments amount {number}.
Arguments transaction_type {number}.
Arguments description {number}.
Arguments created_at {number}.

(** *** The regular expression [/Reward:\s*([\d.]+)/] *)

Definition is_figure_char (c : jschar) : bool := is_digit c || (c =? 46).

Fixpoint take_figure (s : jsstring) : jsstring :=
  match s with
  | c :: s' => if is_figure_char c then c :: take_figure s' else []
  | [] => []
  end.

(** The expression tried at the start of [s]: the capture, if it matches.
    [\s*] takes all the white space there is; giving some back cannot help,
    as a white space is no figure character. *)
Definition match_here (s : jsstring) : option jsstring :=
  if startsWith s (str "Reward:") then
    let figure := take_figure (trimStart (drop 7 s)) in
    if truthy figure then Some figure else None
  else None.

(** [text.match(/Reward:\s*([\d.]+)/)]: the capture of the leftmost match. *)
Fixpoint match_reward (s : jsstring) : option jsstring :=
  match match_here s with
  | Some figure => Some figure
  | None =>
      match s with
      | [] => None
      | _ :: s' => match_reward s'
      end
  end.

Section Display.

Context {number : Type} `{JSNumber number}.

(** [Math.round(x * 100) / 100] *)
Definition round2 (x : number) : number :=
  num_div (Math_round (num_mul x num_hundred)) num_hundred.

(** The test of the first branch, used for the current and for the earlier
    row alike. *)
Definition is_reward_row (t : Transaction number) : bool :=
  jsstring_eqb (transaction_type t) (str "ADDED")
  && match description t with
     | Some d => truthy d && includes d (str "Weekly Sale Reward")
     | None => false
     end.

Definition reward_text (t : Transaction number) : option jsstring :=
  match description t with
  | Some d => match_reward d
  | None => None
  end.

(** The [for] loop over the rows after [index]: the figure of the first
    row of the same user that is a reward row and matches the expression. *)
Fixpoint previousTotalReward (later : list (Transaction number))
    (transaction : Transaction number) : number :=
  match later with
  | [] => num_zero
  | prevTransaction :: later' =>
      if (user_id prevTransaction =? user_id transaction)%Z
         && is_reward_row prevTransaction
      then
        match reward_text prevTransaction with
        | Some figure => parseFloat figure
        | None => previousTotalReward later' transaction
        end
      else previousTotalReward later' transaction
  end.

Definition storedAmount (t : Transaction number) : number :=
  match amount t with
  | NumberAmount n => n
  | TextAmount s =>
      let x := parseFloat (if truthy s then s else str "0") in
      if num_truthy x then x else num_zero
  end.

(** The body of [transactions.map((transaction, index) => ...)] up to
    [displayAmount]. *)
Definition displayAmount (transactions : list (Transaction number))
    (index : nat) (transaction : Transaction number) : number :=
  if is_reward_row transaction then
    let currentTotalReward :=
      match reward_text transaction with
      | Some figure => parseFloat figure
      | None => num_zero
      end in
    if num_positive currentTotalReward then
      round2 (num_sub currentTotalReward
                (previousTotalReward (drop (S index) transactions)
                   transaction))
    else num_zero
  else round2 (storedAmount transaction).

Definition displayAmounts (transactions : list (Transaction number))
    : list number :=
  imap (displayAmount transactions) transactions.

(** *** The words of the specification *)

(** A reward transaction: of type ADDED, marked as weekly sale reward, with
    a description that embeds a figure [Reward: N]. *)
Definition is_reward_transaction (t : Transaction number) : bool :=
  is_reward_row t && bool_decide (is_Some (reward_text t)).

(** What the loop looks for in a later row [p], for the row [t]. *)
Definition wanted (t p : Transaction number) : Prop :=
  user_id p = user_id t /\ is_reward_transaction p = true.

(** Its cumulative figure [N]. *)
Definition cumulative_figure (t : Transaction number) : number :=
  match reward_text t with
  | Some figure => parseFloat figure
  | None => num_zero
  end.

(** [timeOf] reads the instant a [created_at] text denotes. *)
Variable timeOf : jsstring -> Z.

Definition recency (t : Transaction number) : Z := timeOf (created_at t).

(** Sorted descending by recency: a row further down is not more recent.
    Rows may carry the same instant, in either order. *)
Definition sorted_by_recency (txs : list (Transaction number)) : Prop :=
  forall i j ti tj,
    txs !! i = Some ti -> txs !! j = Some tj -> (i < j)%nat ->
    (recency tj <= recency ti)%Z.

(** The row [p], listed at [j], is earlier than the row [t], listed at
    [i]: its instant is earlier, or it is the same instant and [p] is
    listed further down (the list is read from the most recent row on). *)
Definition earlier (i : nat) (t : Transaction number)
    (j : nat) (p : Transaction number) : Prop :=
  (recency p < recency t)%Z \/ (recency p = recency t /\ (i < j)%nat).

(** The row [p] at [j] is an earlier reward transaction of the user of the
    row [t] at [i]. *)
Definition earlier_reward (txs : list (Transaction number))
    (i : nat) (t : Transaction number) (j : nat) (p : Transaction number)
    : Prop :=
  txs !! j = Some p /\ user_id p = user_id t /\ is_reward_transaction p = true
  /\ earlier i t j p.

(** It is the nearest of them: every other one is earlier than it. *)
Definition nearest_earlier_reward (txs : list (Transaction number))
    (i : nat) (t : Transaction number) (j : nat) (p : Transaction number)
    : Prop :=
  earlier_reward txs i t j p
  /\ forall k q, earlier_reward txs i t k q -> k = j \/ earlier j p k q.

End Display.

(** *** Exact arithmetic

    An instance of [JSNumber] that computes with rationals, for running the
    page on examples: it gives what the engine gives wherever the engine's
    result is exact.  [parseFloat] reads decimal literals without
    exponent; there are no infinities (a division by 0 gives [NaN]). *)

Inductive rat := NaN | Rat (q : Q).

Definition mk (q : Q) : rat := Rat (Qred q).

(** Reads digits: their value after [acc], how many, and what follows. *)
Fixpoint read_digits (s : jsstring) (acc : Z) (n : nat) : Z * nat * jsstring :=
  match s with
  | c :: s' =>
      if is_digit c then read_digits s' (10 * acc + (Z.of_N c - 48))%Z (S n)
      else (acc, n, s)
  | [] => (acc, n, [])
  end.

Definition rat_parseFloat (input : jsstring) : rat :=
  let '(sign, s1) := read_sign (trimStart input) in
  let '(ip, ni, rest) := read_digits s1 0%Z 0%nat in
  match rest with
  | c :: r =>
      if c =? 46 then
        let '(fp, nf, _) := read_digits r ip 0%nat in
        if (ni + nf =? 0)%nat then NaN
        else mk (Qmake (sign * fp) (Z.to_pos (10 ^ Z.of_nat nf)))
      else if (ni =? 0)%nat then NaN else mk (inject_Z (sign * ip))
  | [] => if (ni =? 0)%nat then NaN else mk (inject_Z (sign * ip))
  end.

Definition rat_op (f : Q -> Q -> Q) (a b : rat) : rat :=
  match a, b with
  | Rat x, Rat y => mk (f x y)
  | _, _ => NaN
  end.

Definition rat_div (a b : rat) : rat :=
  match a, b with
  | Rat x, Rat y => if Qeq_bool y 0 then NaN else mk (Qdiv x y)
  | _, _ => NaN
  end.

Definition rat_round (a : rat) : rat :=
  match a with
  | Rat x => mk (inject_Z (Qfloor (Qplus x (Qmake 1 2))))
  | NaN => NaN
  end.

Definition rat_positive (a : rat) : bool :=
  match a with Rat x => (0 <? Qnum x)%Z | NaN => false end.

Definition rat_truthy (a : rat) : bool :=
  match a with Rat x => negb (Qeq_bool x 0) | NaN => false end.

Definition exact : JSNumber rat := {|
  parseFloat := rat_parseFloat;
  num_zero := Rat 0;
  num_hundred := Rat (inject_Z 100);
  num_sub := rat_op Qminus;
  num_mul := rat_op Qmult;
  num_div := rat_div;
  Math_round := rat_round;
  num_positive := rat_positive;
  num_truthy := rat_truthy
|}.

(** A row of a user: type, description, [created_at] and stored amount. *)
Definition row (uid : Z) (ty d at_ : string) (stored : Z)
    : Transaction rat :=
  mkTransaction 0%Z uid (NumberAmount (Rat (inject_Z stored))) (str ty)
    (Some (str d)) (str at_).

(** The instant of an ISO 8601 text such as [2024-03-18T09:30:00Z], as the
    number its digits spell: later instants give greater numbers. *)
Definition iso_instant (s : jsstring) : Z :=
  decimal_value (List.filter is_digit s).

(** The sortedness test, as a program. *)
Fixpoint sortedb {number : Type} (timeOf : jsstring -> Z)
    (txs : list (Transaction number)) : bool :=
  match txs with
  | [] => true
  | t :: rest =>
      forallb (fun p => (recency timeOf p <=? recency timeOf t)%Z) rest
      && sortedb timeOf rest
  end.

(** Rewards of user 1; in between a reward of user 2, paid at the instant
    of the first row, and an order. *)
Definition week_first : Transaction rat :=
  row 1 "ADDED" "Weekly Sale Reward: 12.5 (sales 3)" "2024-03-18T09:30:00Z" 13.

Definition week_last : Transaction rat :=
  row 1 "ADDED" "Weekly Sale Reward:  5.125" "2024-03-11T09:30:00Z" 5.

Definition week_rows : list (Transaction rat) :=
  [week_first;
   row 2 "ADDED" "Weekly Sale Reward: 7.25" "2024-03-18T09:30:00Z" 7;
   row 1 "DEDUCTED" "Order" "2024-03-12T12:00:00Z" 7;
   week_last].

(** A reward whose figure is 0, after one whose figure is 5. *)
Definition zero_row : Transaction rat :=
  row 1 "ADDED" "Weekly Sale Reward: 0" "2024-03-18T09:30:00Z" 0.

Definition five_row : Transaction rat :=
  row 1 "ADDED" "Weekly Sale Reward: 5" "2024-03-11T09:30:00Z" 5.

Definition zero_rows : list (Transaction rat) := [zero_row; five_row].

(** The only reward of a user in the list. *)
Definition lone_row : Transaction rat :=
  row 1 "ADDED" "Weekly Sale Reward: 12.5" "2024-03-18T09:30:00Z" 13.

Definition lone_rows : list (Transaction rat) := [lone_row].

End TransactionRows.

(** * The rest of the pages *)

(** ** The dashboard: users *)

Module DashboardUsers.

Import Dashboard.

(** The two statuses of PATCH /users/{id}/status. *)
Inductive UserStatusArg := APPROVED | REJECTED.

(** What the user handlers do to the outside; [Refetch] wraps what
    [fetchData] does. *)
Inductive Effect :=
| Confirm (question : jsstring) (answer : bool)
| PatchUserStatus (userId : Z) (status : UserStatusArg)
| Refetch (e : Dashboard.Effect).

(** [handleApproveUser(userId)] *)
Definition handleApproveUser `{CaseMapping} (userId : Z)
    (patch : ApiResult unit) (replies : FetchReplies) (st : State)
    : State * list Effect :=
  let request := PatchUserStatus userId APPROVED in
  match patch with
  | Resolved _ =>
      let st1 := showToast (str "User approved successfully!") success st in
      let '(st2, tr) := fetchData replies st1 in
      (st2, request :: map Refetch tr)
  | Rejected e =>
      (showToast (error_or e (str "Failed to approve user")) error st,
       [request])
  end.

Definition reject_user_question : jsstring :=
  str "Are you sure you want to reject this user?".

(** [handleRejectUser(userId)] *)
Definition handleRejectUser `{CaseMapping} (userId : Z)
    (confirm : jsstring -> bool) (patch : ApiResult unit)
    (replies : FetchReplies) (st : State) : State * list Effect :=
  let asked := Confirm reject_user_question (confirm reject_user_question) in
  if negb (confirm reject_user_question) then (st, [asked])
  else
    let request := PatchUserStatus userId REJECTED in
    match patch with
    | Resolved _ =>
        let st1 := showToast (str "User rejected successfully!") success st in
        let '(st2, tr) := fetchData replies st1 in
        (st2, asked :: request :: map Refetch tr)
    | Rejected e =>
        (showToast (error_or e (str "Failed to reject user")) error st,
         [asked; request])
    end.

(** The predicate of [filteredPendingUsers] and [filteredApprovedUsers];
    [query] is [searchQuery.toLowerCase()]. *)
Definition user_matches `{CaseMapping} (query : jsstring) (user : User)
    : bool :=
  includes
    (toLowerCase (match nickname user with
                  | Some n => if truthy n then n else name user
                  | None => name user
                  end)) query
  || includes (toLowerCase (name user)) query
  || includes (toLowerCase (id_number user)) query
  || opt_field_matches (user_email user) query.

Definition filteredPendingUsers `{CaseMapping} (st : State) : list User :=
  List.filter (user_matches (toLowerCase (searchQuery st))) (pendingUsers st).

Definition filteredApprovedUsers `{CaseMapping} (st : State) : list User :=
  List.filter (user_matches (toLowerCase (searchQuery st))) (approvedUsers st).

(** The orders of one user in a list, in the order of the list. *)
Definition orders_of (k : Z) (l : list Order) : list Order :=
  List.filter (fun o => (user_id o =? k)%Z) l.

(** Whether all four requests of [fetchData] resolved. *)
Definition all_resolved (replies : FetchReplies) : bool :=
  match pendingRes replies, approvedRes replies,
        ordersRes replies, rejectedRes replies with
  | Resolved _, Resolved _, Resolved _, Resolved _ => true
  | _, _, _, _ => false
  end.

(** A dashboard that has loaded: a pending and an approved user, orders of
    several statuses in both order lists, and the order ids of the last
    load. *)
Definition ann : User :=
  mkUser 1 (str "Ann") None (Some (str "ann@shop.io")) (str "901234567V").

Definition bob : User :=
  mkUser 2 (str "Bob") (Some (str "Bobby")) None (str "881234567V").

Definition order_row (i uid : Z) (number status : string) : Order :=
  mkOrder i (str number) uid (str "Ann") (str "901234567V") None None None
    (Some (str status)).

Definition busy : State :=
  mkState [ann] [bob]
    [order_row 1 1 "ORD-1" "pending"; order_row 2 2 "ORD-2" "completed"]
    [order_row 3 1 "ORD-3" " Rejected "; order_row 4 2 "ORD-4" "PENDING"]
    false [] [] [] None (list_to_set [1%Z; 2%Z]) true.

(** Replies of which the last one rejects; the other three carry new
    lists. *)
Definition one_fails : FetchReplies :=
  mkReplies (Resolved (mkListResponse (Some [bob]) None))
    (Resolved (mkListResponse (Some [ann; bob]) None))
    (Resolved (mkListResponse None (Some [order_row 5 1 "ORD-5" "pending"])))
    (Rejected None).

(** Replies that all resolve; the pending orders hold an order, 5, that
    [busy] has not seen. *)
Definition news : FetchReplies :=
  mkReplies (Resolved (mkListResponse (Some [ann]) None))
    (Resolved (mkListResponse (Some [bob]) None))
    (Resolved
       (mkListResponse None
          (Some [order_row 5 1 "ORD-5" "pending";
                 order_row 1 1 "ORD-1" "pending"])))
    (Resolved (mkListResponse None None)).

End DashboardUsers.

(** ** The transactions pages: clearing the search

    [handleClearSearch] calls [setSearchQuery('')] and then
    [fetchTransactions()].  The function it calls is the one of the current
    render, whose [searchQuery] is the text before the click: the state
    update shows only in the next render. *)

Module ClearSearch.






(** How many of the three filters a request carries. *)
Definition is_set {A} (o : option A) : nat :=
  match o with Some _ => 1 | None => 0 end.

Definition filters_set (p : Params) : nat :=
  (is_set (userId p) + is_set (idNumber p) + is_set (email p))%nat.

End ClearSearch.

(** ** The user details page: loading and status *)

Module UserDetailsLoad.

Inductive Effect :=
| Confirm (question : jsstring) (answer : bool)
| GetUser (userId : jsstring)
| GetUserTransactions (userId : jsstring) (limit : Z)
| PatchStatus (userId : jsstring) (status : DashboardUsers.UserStatusArg)
| ConsoleError (text : jsstring).

(** The state the loading functions write; [T] is the type of the rows. *)
Record State (T : Type) := mkState {
  user : option UserDetails.UserRow;
  transactions : list T;
  loading : bool;
  loadingTransactions : bool;
  toast : option ToastState
}.
Arguments mkState {T}.
Arguments user {T}.
Arguments transactions {T}.
Arguments loading {T}.
Arguments loadingTransactions {T}.
Arguments toast {T}.

Definition setUser {T} (u : option UserDetails.UserRow) (st : State T)
    : State T :=
  mkState u (transactions st) (loading st) (loadingTransactions st) (toast st).

Definition setTransactions {T} (l : list T) (st : State T) : State T :=
  mkState (user st) l (loading st) (loadingTransactions st) (toast st).

Definition setLoading {T} (b : bool) (st : State T) : State T :=
  mkState (user st) (transactions st) b (loadingTransactions st) (toast st).

Definition setLoadingTransactions {T} (b : bool) (st : State T) : State T :=
  mkState (user st) (transactions st) (loading st) b (toast st).

Definition showToast {T} (m : jsstring) (t : ToastType) (st : State T)
    : State T :=
  mkState (user st) (transactions st) (loading st) (loadingTransactions st)
    (Some (mkToast m t)).

(** [fetchUserTransactions]: [reply] carries
    [response.data.transactions]. *)
Definition fetchUserTransactions {T} (userId : jsstring)
    (reply : ApiResult (option (list T))) (st : State T)
    : State T * list Effect :=
  if negb (truthy userId) then (st, [])
  else
    let st1 := setLoadingTransactions true st in
    let request := GetUserTransactions userId 50 in
    match reply with
    | Resolved listed =>
        (setLoadingTransactions false
           (setTransactions (default [] listed) st1), [request])
    | Rejected _ =>
        (setLoadingTransactions false st1,
         [request; ConsoleError (str "Failed to fetch transactions:")])
    end.

(** [fetchUserDetails]: [reply] carries [response.data.user]; the rows are
    fetched after the user was stored. *)
Definition fetchUserDetails {T} (userId : jsstring)
    (reply : ApiResult (option UserDetails.UserRow))
    (rows : ApiResult (option (list T))) (st : State T)
    : State T * list Effect :=
  let st1 := setLoading true st in
  let request := GetUser userId in
  match reply with
  | Resolved u =>
      let '(st2, tr) := fetchUserTransactions userId rows (setUser u st1) in
      (setLoading false st2, request :: tr)
  | Rejected e =>
      (setLoading false
         (showToast (error_or e (str "Failed to load user details")) error
            st1),
       [request; ConsoleError (str "Failed to fetch user details:")])
  end.

(** [newStatus.toLowerCase()] on the two literals. *)
Definition status_lower (s : DashboardUsers.UserStatusArg) : jsstring :=
  match s with
  | DashboardUsers.APPROVED => str "approved"
  | DashboardUsers.REJECTED => str "rejected"
  end.

Definition status_question (s : DashboardUsers.UserStatusArg) : jsstring :=
  str "Are you sure you want to " ++ status_lower s ++ str " this user?".

(** [handleStatusChange(newStatus)] *)
Definition handleStatusChange {T} (userId : jsstring)
    (newStatus : DashboardUsers.UserStatusArg)
    (confirm : jsstring -> bool) (patch : ApiResult unit)
    (reply : ApiResult (option UserDetails.UserRow))
    (rows : ApiResult (option (list T))) (st : State T)
    : State T * list Effect :=
  let asked :=
    Confirm (status_question newStatus) (confirm (status_question newStatus)) in
  if negb (confirm (status_question newStatus)) then (st, [asked])
  else
    let request := PatchStatus userId newStatus in
    match patch with
    | Resolved _ =>
        let st1 :=
          showToast (str "User " ++ status_lower newStatus
                     ++ str " successfully!") success st in
        let '(st2, tr) := fetchUserDetails userId reply rows st1 in
        (st2, asked :: request :: tr)
    | Rejected e =>
        (showToast
           (error_or e (str "Failed to " ++ status_lower newStatus
                        ++ str " user")) error st,
         [asked; request])
    end.

Definition is_request (e : Effect) : bool :=
  match e with
  | GetUser _ | GetUserTransactions _ _ | PatchStatus _ _ => true
  | _ => false
  end.

Definition empty {T} : State T := mkState None [] true false None.

(** A user who types [text] as the amount and cancels the description. *)
Definition types (text : string) (question : jsstring) : option jsstring :=
  if jsstring_eqb question UserDetails.amount_question then Some (str text)
  else None.

End UserDetailsLoad.

(** ** The session: the token cookie, login, logout and the page gate *)

Module Auth.

(** The attributes [setToken] gives the cookie. *)
Record Cookie := mkCookie {
  value : jsstring;
  expires : Z;
  secure : bool;
  sameSite : jsstring;
  path : jsstring
}.

(** The browser as the session code sees it: the cookie jar, the protocol
    of the page and the route. *)
Record Browser := mkBrowser {
  cookies : gmap (list N) Cookie;
  protocol : jsstring;
  location : jsstring
}.

(** [setToken(token)], in the browser. *)
Definition setToken (token : jsstring) (b : Browser) : Browser :=
  let isSecure := jsstring_eqb (protocol b) (str "https:") in
  mkBrowser
    (<[str "token" := mkCookie token 7 isSecure (str "lax") (str "/")]>
       (cookies b))
    (protocol b) (location b).

(** [getToken()] *)
Definition getToken (b : Browser) : option jsstring :=
  value <$> cookies b !! str "token".

(** [removeToken()] *)
Definition removeToken (b : Browser) : Browser :=
  mkBrowser (delete (str "token") (cookies b)) (protocol b) (location b).

(** [isAuthenticated()]: [!!getToken()] *)
Definition isAuthenticated (b : Browser) : bool :=
  match getToken b with
  | Some t => truthy t
  | None => false
  end.

Definition push (route : jsstring) (b : Browser) : Browser :=
  mkBrowser (cookies b) (protocol b) route.


(** [handleLogout] of the sidebar. *)
Definition handleLogout (b : Browser) : Browser :=
  push (str "/login") (removeToken b).

(** The effect that guards the transactions page when it mounts:
    redirect without a token, fetch with one. *)
Definition mountTransactions {T} (reply : ApiResult (option (list T)))
    (b : Browser) (st : TransactionsPage.State T)
    : Browser * TransactionsPage.State T * list TransactionsEffect :=
  if negb (isAuthenticated b) then (push (str "/login") b, st, [])
  else
    let '(st1, tr) := TransactionsPage.fetchTransactions reply st in
    (b, st1, tr).

Definition fresh : Browser := mkBrowser ∅ (str "https:") (str "/login").

End Auth.

(** ** The sidebar menu *)

Module Sidebar.

(** [s.split(sep)] for a separator of one character. *)
Fixpoint split_acc (sep : jschar) (s : jsstring) (piece : jsstring)
    : list jsstring :=
  match s with
  | [] => [reverse piece]
  | c :: s' =>
      if c =? sep then reverse piece :: split_acc sep s' []
      else split_acc sep s' (c :: piece)
  end.

Definition split (s : jsstring) (sep : jschar) : list jsstring :=
  split_acc sep s [].

(** The text of a template literal slot: a missing value prints as
    [undefined]. *)
Definition slot (v : option jsstring) : jsstring :=
  default (str "undefined") v.

(** [isActive(href)] in the browser, at the route [pathname] with the
    query string [search]. *)
Definition isActive (pathname search href : jsstring) : bool :=
  if jsstring_eqb href (str "/dashboard") then
    jsstring_eqb pathname (str "/dashboard") && negb (truthy search)
  else
    let tab := split href 61 !! 1%nat in
    jsstring_eqb pathname (str "/dashboard")
    && includes search (str "tab=" ++ slot tab).

Definition menuItems : list jsstring :=
  [str "/dashboard"; str "/dashboard?tab=pending"; str "/dashboard?tab=users";
   str "/dashboard?tab=orders"; str "/transactions"; str "/reports"].

(** The items drawn as active. *)
Definition activeItems (pathname search : jsstring) : list jsstring :=
  List.filter (isActive pathname search) menuItems.

End Sidebar.

(** ** The theme toggle *)

Module ThemeToggle.

Inductive Theme := light | dark.

Definition theme_text (t : Theme) : jsstring :=
  match t with light => str "light" | dark => str "dark" end.

Definition STORAGE_KEY : jsstring := str "admin-theme".

(** What the component reads and writes outside itself: local storage,
    the colour scheme the system prefers, and whether the document carries
    the class [dark]. *)
Record Env := mkEnv {
  localStorage : gmap (list N) (list N);
  prefersDark : bool;
  darkClass : bool
}.

Definition is_dark (t : Theme) : bool :=
  match t with dark => true | light => false end.

(** [getPreferredTheme()], in the browser. *)
Definition getPreferredTheme (env : Env) : Theme :=
  match localStorage env !! STORAGE_KEY with
  | Some stored =>
      if jsstring_eqb stored (str "light") then light
      else if jsstring_eqb stored (str "dark") then dark
      else if prefersDark env then dark else light
  | None => if prefersDark env then dark else light
  end.

(** The effect run when the component mounts. *)
Definition mount (env : Env) : Theme * Env :=
  let preferred := getPreferredTheme env in
  (preferred, mkEnv (localStorage env) (prefersDark env) (is_dark preferred)).

(** [toggleTheme] *)
Definition toggleTheme (theme : Theme) (env : Env) : Theme * Env :=
  let next := match theme with dark => light | light => dark end in
  (next,
   mkEnv (<[STORAGE_KEY := theme_text next]> (localStorage env))
     (prefersDark env) (is_dark next)).

(** The component after mounting and [n] clicks. *)
Fixpoint clicks (n : nat) (env : Env) : Theme * Env :=
  match n with
  | O => mount env
  | S n' => let '(theme, env') := clicks n' env in toggleTheme theme env'
  end.

End ThemeToggle.

(** ** The announcements page *)

Module Announcements.

Inductive AnnouncementType := info_type | warning_type | success_type.

(** [is_active] comes as a number or as a boolean. *)
Inductive ActiveFlag :=
| FlagBoolean (b : bool)
| FlagNumber (n : Z).

(** [Boolean(flag)], and so the truthiness of the flag. *)
Definition flag_truthy (f : ActiveFlag) : bool :=
  match f with
  | FlagBoolean b => b
  | FlagNumber n => negb (n =? 0)%Z
  end.

Record Announcement := mkAnnouncement {
  id : Z;
  title : jsstring;
  message : jsstring;
  type : AnnouncementType;
  is_active : ActiveFlag;
  created_at : jsstring
}.

Record FormData := mkForm {
  form_title : jsstring;
  form_message : jsstring;
  form_type : AnnouncementType;
  form_is_active : bool
}.

Inductive Effect :=
| Confirm (question : jsstring) (answer : bool)
| GetAnnouncements
| PostAnnouncement (body : FormData)
| PutAnnouncement (id : Z) (body : FormData)
| PutActive (id : Z) (is_active : bool)
| DeleteAnnouncement (id : Z)
| ConsoleError (text : jsstring).

Record State := mkState {
  announcements : list Announcement;
  loading : bool;
  toast : option ToastState;
  showModal : bool;
  editingId : option Z;
  formData : FormData
}.

Definition setAnnouncements (l : list Announcement) (st : State) : State :=
  mkState l (loading st) (toast st) (showModal st) (editingId st)
    (formData st).

Definition setLoading (b : bool) (st : State) : State :=
  mkState (announcements st) b (toast st) (showModal st) (editingId st)
    (formData st).

Definition showToast (m : jsstring) (t : ToastType) (st : State) : State :=
  mkState (announcements st) (loading st) (Some (mkToast m t)) (showModal st)
    (editingId st) (formData st).

(** [fetchAnnouncements]; [reply] carries [response.data.announcements]. *)
Definition fetchAnnouncements (reply : ApiResult (option (list Announcement)))
    (st : State) : State * list Effect :=
  let st1 := setLoading true st in
  match reply with
  | Resolved listed =>
      (setLoading false (setAnnouncements (default [] listed) st1),
       [GetAnnouncements])
  | Rejected e =>
      (setLoading false
         (showToast (error_or e (str "Failed to load announcements")) error
            st1),
       [GetAnnouncements;
        ConsoleError (str "Failed to fetch announcements:")])
  end.

Definition openCreateModal (st : State) : State :=
  mkState (announcements st) (loading st) (toast st) true None
    (mkForm [] [] info_type true).

Definition openEditModal (a : Announcement) (st : State) : State :=
  mkState (announcements st) (loading st) (toast st) true (Some (id a))
    (mkForm (title a) (message a) (type a) (flag_truthy (is_active a))).

Definition closeModal (st : State) : State :=
  mkState (announcements st) (loading st) (toast st) false None (formData st).

(** [if (editingId)]: an id that is set and is not 0. *)
Definition editing (st : State) : option Z :=
  match editingId st with
  | Some i => if (i =? 0)%Z then None else Some i
  | None => None
  end.

(** [handleSubmit]: [save] is the reply to the PUT or POST, [reply] the
    reply to the list request that follows. *)
Definition handleSubmit (save : ApiResult unit)
    (reply : ApiResult (option (list Announcement))) (st : State)
    : State * list Effect :=
  let request :=
    match editing st with
    | Some i => PutAnnouncement i (formData st)
    | None => PostAnnouncement (formData st)
    end in
  match save with
  | Resolved _ =>
      let st1 :=
        showToast
          (match editing st with
           | Some _ => str "Announcement updated successfully"
           | None => str "Announcement created successfully"
           end) success st in
      let '(st2, tr) := fetchAnnouncements reply (closeModal st1) in
      (st2, request :: tr)
  | Rejected e =>
      (showToast (error_or e (str "Failed to save announcement")) error st,
       [request])
  end.

Definition delete_question : jsstring :=
  str "Are you sure you want to delete this announcement?".

(** [handleDelete(id)] *)
Definition handleDelete (target : Z) (confirm : jsstring -> bool)
    (del : ApiResult unit) (reply : ApiResult (option (list Announcement)))
    (st : State) : State * list Effect :=
  let asked := Confirm delete_question (confirm delete_question) in
  if negb (confirm delete_question) then (st, [asked])
  else
    match del with
    | Resolved _ =>
        let st1 := showToast (str "Announcement deleted") success st in
        let '(st2, tr) := fetchAnnouncements reply st1 in
        (st2, asked :: DeleteAnnouncement target :: tr)
    | Rejected e =>
        (showToast (error_or e (str "Failed to delete")) error st,
         [asked; DeleteAnnouncement target])
    end.

(** [toggleActive(a)] *)
Definition toggleActive (a : Announcement) (put : ApiResult unit)
    (reply : ApiResult (option (list Announcement))) (st : State)
    : State * list Effect :=
  let request := PutActive (id a) (negb (flag_truthy (is_active a))) in
  match put with
  | Resolved _ =>
      let st1 :=
        showToast (if flag_truthy (is_active a)
                   then str "Announcement hidden"
                   else str "Announcement activated") success st in
      let '(st2, tr) := fetchAnnouncements reply st1 in
      (st2, request :: tr)
  | Rejected e =>
      (showToast (error_or e (str "Failed to update")) error st, [request])
  end.

Definition initial : State :=
  mkState [] true None false None (mkForm [] [] info_type true).

Definition notice : Announcement :=
  mkAnnouncement 4 (str "Maintenance") (str "Sunday 02:00") warning_type
    (FlagNumber 1) (str "2024-03-18T09:30:00Z").

End Announcements.

(** ** The weekly report: the user filter *)

Module Reports.

Record UserBreakdown := mkUserBreakdown {
  user_id : Z;
  name : option jsstring;
  nickname : option jsstring;
  id_number : option jsstring;
  email : option jsstring
}.

(** The decimal text of an integer, as [toString()] prints a user id. *)
Definition Z_text (z : Z) : jsstring :=
  match z with
  | Z0 => str "0"
  | Zpos p => Dashboard.decimal_text (Pos.to_nat p)
  | Zneg p => str "-" ++ Dashboard.decimal_text (Pos.to_nat p)
  end.

(** [field?.toLowerCase().includes(search)] *)
Definition optional_includes `{Dashboard.CaseMapping}
    (field : option jsstring) (search : jsstring) : bool :=
  match field with
  | Some f => includes (Dashboard.toLowerCase f) search
  | None => false
  end.

Definition user_matches `{Dashboard.CaseMapping} (search : jsstring)
    (user : UserBreakdown) : bool :=
  optional_includes (name user) search
  || optional_includes (nickname user) search
  || optional_includes (id_number user) search
  || Dashboard.opt_field_matches (email user) search
  || includes (Z_text (user_id user)) search.

(** The effect on [userSearch] and [report]: what it stores in
    [filteredUsers], given the breakdown of the report. *)
Definition filterUsers `{Dashboard.CaseMapping} (userSearch : jsstring)
    (userBreakdown : list UserBreakdown) : list UserBreakdown :=
  if negb (truthy (trim userSearch)) then userBreakdown
  else
    let search := trim (Dashboard.toLowerCase userSearch) in
    List.filter (user_matches search) userBreakdown.

End Reports.

(** * Proofs *)

(** ** Strings *)

Lemma startsWith_nil (s : jsstring) : startsWith s [] = true.
Proof. by destruct s. Qed.

Lemma includes_char (s : jsstring) (c : jschar) :
  includes s [c] = true <-> c ∈ s.
Proof.
  induction s as [|a s IH]; simpl.
  - split; [discriminate | intros Hin; inversion Hin].
  - rewrite startsWith_nil, andb_true_r, orb_true_iff, N.eqb_eq, elem_of_cons.
    split; (intros [->|Hin]; [by left | right; by apply IH]).
Qed.

Lemma includes_char_false (s : jsstring) (c : jschar) :
  includes s [c] = false <-> c ∉ s.
Proof.
  pose proof (includes_char s c) as Hi.
  destruct (includes s [c]); split; try done.
  - intros Hn. destruct Hn. by apply Hi.
  - intros _ Hin. by apply Hi in Hin.
Qed.

Lemma trimStart_suffix (s : jsstring) : trimStart s `suffix_of` s.
Proof.
  induction s as [|c s IH]; simpl; [done|].
  destruct (is_whitespace c); [by apply suffix_cons_r | done].
Qed.

Lemma trimStart_keeps (s : jsstring) (c : jschar) :
  is_whitespace c = false -> c ∈ s -> c ∈ trimStart s.
Proof.
  intros Hc. induction s as [|a s IH]; simpl; [done|].
  intros Hin. destruct (is_whitespace a) eqn:Ha; [|done].
  apply elem_of_cons in Hin as [->|Hin]; [congruence | auto].
Qed.

Lemma trimStart_subset (s : jsstring) (c : jschar) :
  c ∈ trimStart s -> c ∈ s.
Proof.
  intros Hin. destruct (trimStart_suffix s) as [k Hk].
  rewrite Hk. apply elem_of_app. by right.
Qed.

Lemma trim_keeps (s : jsstring) (c : jschar) :
  is_whitespace c = false -> c ∈ s -> c ∈ trim s.
Proof.
  intros Hc Hin. unfold trim, trimEnd.
  apply elem_of_reverse, trimStart_keeps; [done|].
  by apply elem_of_reverse, trimStart_keeps.
Qed.

Lemma trim_subset (s : jsstring) (c : jschar) : c ∈ trim s -> c ∈ s.
Proof.
  unfold trim, trimEnd. intros Hin.
  apply (proj1 (elem_of_reverse _ _)), trimStart_subset in Hin.
  apply (proj1 (elem_of_reverse _ _)) in Hin.
  by apply trimStart_subset.
Qed.

Lemma truthy_elem (s : jsstring) (c : jschar) : c ∈ s -> truthy s = true.
Proof. destruct s; [by intros ?%elem_of_nil | done]. Qed.

Lemma forallb_elem {A} (f : A -> bool) (l : list A) :
  forallb f l = true <-> forall x, x ∈ l -> f x = true.
Proof.
  induction l as [|a l IH]; simpl.
  - split; [intros _ x Hx; inversion Hx | done].
  - rewrite andb_true_iff. split.
    + intros [Ha Hl] x [->|Hx]%elem_of_cons; [done | by apply IH].
    + intros Hall. split; [apply Hall; left | apply IH; intros x Hx; apply Hall; by right].
Qed.

Lemma trim_no_whitespace (s : jsstring) :
  forallb (fun c => negb (is_whitespace c)) s = true -> trim s = s.
Proof.
  intros Hall. unfold trim, trimEnd.
  assert (Hs : forall l : jsstring,
             forallb (fun c => negb (is_whitespace c)) l = true ->
             trimStart l = l).
  { intros [|a l]; simpl; [done|].
    intros [Ha _]%andb_true_iff. by destruct (is_whitespace a). }
  rewrite (Hs s Hall), Hs, reverse_involutive; [done|].
  apply forallb_elem. intros c Hc.
  apply (proj1 (elem_of_reverse _ _)) in Hc.
  by apply (proj1 (forallb_elem _ _) Hall).
Qed.

Lemma digit_not_whitespace (c : jschar) :
  is_digit c = true -> is_whitespace c = false.
Proof.
  unfold is_digit, is_whitespace. intros [H1 H2]%andb_true_iff.
  apply N.leb_le in H1, H2.
  repeat (apply orb_false_iff; split); try (apply N.eqb_neq; lia).
  apply andb_false_iff. left. apply N.leb_gt. lia.
Qed.

Lemma trim_numeric (s : jsstring) : is_numeric s = true -> trim s = s.
Proof.
  intros [_ Hd]%andb_true_iff. apply trim_no_whitespace.
  apply forallb_elem. intros c Hc.
  rewrite (digit_not_whitespace c); [done|].
  by apply (proj1 (forallb_elem _ _) Hd).
Qed.

(** ** parseInt on strings of digits *)

Lemma digit_value_10 (c : jschar) :
  is_digit c = true -> digit_value 10 c = Some (Z.of_N c - 48)%Z.
Proof.
  intros Hd. unfold digit_value. rewrite Hd.
  unfold is_digit in Hd. apply andb_true_iff in Hd as [H1 H2].
  apply N.leb_le in H1, H2.
  destruct (Z.ltb_spec (Z.of_N c - 48) 10); [done | lia].
Qed.

Lemma parse_digits_all (s : jsstring) (a : Z) :
  forallb is_digit s = true ->
  parse_digits 10 s (Some a)
  = Some (fold_left (fun acc c => (10 * acc + (Z.of_N c - 48))%Z) s a).
Proof.
  revert a. induction s as [|c s IH]; intros a; simpl; [done|].
  intros [Hc Hs]%andb_true_iff. rewrite (digit_value_10 c Hc). simpl.
  by apply IH.
Qed.

Lemma parseInt_numeric (s : jsstring) :
  is_numeric s = true -> parseInt s = Some (decimal_value s).
Proof.
  intros Hn. pose proof (trim_numeric s Hn) as Ht.
  apply andb_true_iff in Hn as [Hne Hd].
  destruct s as [|c s]; [done|].
  assert (Hc : is_digit c = true) by (by apply andb_true_iff in Hd as [? ?]).
  pose proof Hc as Hc'. unfold is_digit in Hc'.
  apply andb_true_iff in Hc' as [H1 H2]. apply N.leb_le in H1, H2.
  assert (Hsign : read_sign (c :: s) = (1%Z, c :: s)).
  { unfold read_sign. destruct (N.eqb_spec c 45); [lia|].
    destruct (N.eqb_spec c 43); [lia | done]. }
  assert (Hradix : read_radix (c :: s) = (10%Z, c :: s)).
  { unfold read_radix. destruct s as [|x r]; [done|].
    simpl in Hd. apply andb_true_iff in Hd as [_ [Hx _]%andb_true_iff].
    unfold is_digit in Hx. apply andb_true_iff in Hx as [H3 H4].
    apply N.leb_le in H3, H4.
    destruct (N.eqb_spec x 120); [lia|]. destruct (N.eqb_spec x 88); [lia|].
    by rewrite andb_false_r. }
  unfold parseInt. simpl trimStart.
  rewrite (digit_not_whitespace c Hc), Hsign, Hradix.
  simpl parse_digits. rewrite (digit_value_10 c Hc).
  simpl in Hd. apply andb_true_iff in Hd as [_ Hs].
  simpl. rewrite (parse_digits_all s _ Hs). unfold decimal_value. simpl.
  f_equal. destruct (fold_left _ s _); lia.
Qed.

Lemma numeric_no_at (s : jsstring) :
  is_numeric s = true -> includes s (str "@") = false.
Proof.
  intros [_ Hd]%andb_true_iff. change (str "@") with [64].
  apply includes_char_false. intros Hin.
  apply (proj1 (forallb_elem _ _) Hd) in Hin. done.
Qed.

Lemma numeric_short_user_id (s : jsstring) :
  is_numeric s = true -> (length s <= 3)%nat ->
  (0 < decimal_value s < 10000)%Z -> is_short_user_id s = true.
Proof.
  intros Hn Hl Hv. unfold is_short_user_id.
  rewrite (parseInt_numeric s Hn). simpl.
  destruct (Nat.leb_spec (length s) 3); [|lia].
  destruct (Z.ltb_spec 0 (decimal_value s)); [|lia].
  destruct (Z.ltb_spec (decimal_value s) 10000); [done|lia].
Qed.

(** ** The search classifier *)

Lemma at_not_whitespace : is_whitespace 64 = false.
Proof. reflexivity. Qed.

Lemma no_at_trim (s : list N) :
  includes s (str "@") = false -> includes (trim s) (str "@") = false.
Proof.
  intros Hno. change (str "@") with [64] in *.
  apply includes_char_false. intros Hin.
  apply includes_char_false in Hno. by apply Hno, trim_subset.
Qed.

(** On the page with receipts, a search text with an [@] is looked up as
    an e-mail address, whatever else it contains. *)
Lemma email_params (s : list N) :
  includes s (str "@") = true ->
  TransactionsPage.fetchTransactions_params s
  = mkParams 500 None None (Some (trim s)).
Proof.
  intros Hat. change (str "@") with [64] in *.
  apply includes_char in Hat.
  pose proof (trim_keeps s 64 at_not_whitespace Hat) as Hin.
  unfold TransactionsPage.fetchTransactions_params.
  change (str "@") with [64].
  rewrite (truthy_elem _ _ Hin).
  by rewrite (proj2 (includes_char (trim s) 64) Hin).
Qed.

Lemma short_numeric_params (s : list N) :
  is_numeric s = true -> (length s <= 3)%nat ->
  (0 < decimal_value s < 10000)%Z ->
  TransactionsPage.fetchTransactions_params s
  = mkParams 500 (Some (decimal_value s)) None None
  /\ TransactionsPagePolling.fetchTransactions_params s
     = mkParams 500 (Some (decimal_value s)) None None.
Proof.
  intros Hn Hl Hv.
  unfold TransactionsPage.fetchTransactions_params,
    TransactionsPagePolling.fetchTransactions_params.
  rewrite (trim_numeric s Hn), (numeric_no_at s Hn),
    (numeric_short_user_id s Hn Hl Hv), (parseInt_numeric s Hn).
  apply andb_true_iff in Hn as [-> _]. done.
Qed.

Lemma other_params (s : list N) :
  truthy (trim s) = true ->
  includes s (str "@") = false ->
  is_short_user_id (trim s) = false ->
  TransactionsPage.fetchTransactions_params s
  = mkParams 500 None (Some (trim s)) None
  /\ TransactionsPagePolling.fetchTransactions_params s
     = mkParams 500 None (Some (trim s)) None.
Proof.
  intros Hne Hat Hid.
  unfold TransactionsPage.fetchTransactions_params,
    TransactionsPagePolling.fetchTransactions_params.
  by rewrite Hne, (no_at_trim s Hat), Hid.
Qed.

(** Every fetch sends one request, with the parameters built from the
    search text of the state, whatever the reply is. *)
Lemma TransactionsPage_requested {T} (reply : ApiResult (option (list T)))
    (st : TransactionsPage.State T) :
  requested (TransactionsPage.fetchTransactions reply st)
  = Some (TransactionsPage.fetchTransactions_params
            (TransactionsPage.searchQuery st)).
Proof. by destruct reply. Qed.

Lemma TransactionsPagePolling_requested {T}
    (reply : ApiResult (option (list T)))
    (st : TransactionsPagePolling.State T) :
  requested (TransactionsPagePolling.fetchTransactions reply st)
  = Some (TransactionsPagePolling.fetchTransactions_params
            (TransactionsPagePolling.searchQuery st))
  /\ requested (TransactionsPagePolling.autoRefresh reply st)
     = Some (TransactionsPagePolling.fetchTransactions_params
               (TransactionsPagePolling.searchQuery st)).
Proof. by destruct reply. Qed.

(** The page with receipts does what C1 says, for every search text. *)
Lemma TransactionsPage_email_search {T} (reply : ApiResult (option (list T)))
    (st : TransactionsPage.State T) :
  includes (TransactionsPage.searchQuery st) (str "@") = true ->
  requested (TransactionsPage.fetchTransactions reply st)
  = Some (mkParams 500 None None
            (Some (trim (TransactionsPage.searchQuery st)))).
Proof.
  intros Hat. by rewrite TransactionsPage_requested, (email_params _ Hat).
Qed.

(** The polling page never sets the e-mail parameter. *)
Lemma TransactionsPagePolling_no_email (s : list N) :
  email (TransactionsPagePolling.fetchTransactions_params s) = None.
Proof.
  unfold TransactionsPagePolling.fetchTransactions_params.
  destruct (truthy (trim s)); [|done].
  by destruct (is_short_user_id (trim s)).
Qed.

(** On the page that refreshes itself, a search text with an [@] is
    classified like any other text: by the user-id test alone. *)
Lemma polling_email_params (s : list N) :
  includes s (str "@") = true ->
  TransactionsPagePolling.fetchTransactions_params s
  = if is_short_user_id (trim s)
    then mkParams 500 (parseInt (trim s)) None None
    else mkParams 500 None (Some (trim s)) None.
Proof.
  intros Hat. change (str "@") with [64] in Hat.
  apply includes_char in Hat.
  pose proof (trim_keeps s 64 at_not_whitespace Hat) as Hin.
  unfold TransactionsPagePolling.fetchTransactions_params.
  by rewrite (truthy_elem _ _ Hin).
Qed.

(** C1 as stated fails on the transactions page that refreshes itself: the
    search text [a@b.com], which contains an [@], is sent as the idNumber
    filter and no email filter is set, by [fetchTransactions] and by the
    refresh timer alike. *)
Lemma polling_page_sends_email_as_idNumber :
  includes (str "a@b.com") (str "@") = true
  /\ requested (TransactionsPagePolling.fetchTransactions (T := unit)
                  (Resolved None)
                  (TransactionsPagePolling.searching (str "a@b.com")))
     = Some (mkParams 500 None (Some (str "a@b.com")) None)
  /\ requested (TransactionsPagePolling.autoRefresh (T := unit)
                  (Resolved None)
                  (TransactionsPagePolling.searching (str "a@b.com")))
     = Some (mkParams 500 None (Some (str "a@b.com")) None).
Proof. repeat split; reflexivity. Qed.

(** C1, amended: on the transactions page with the receipt column, a
    search text that contains an [@] is sent as the email filter, trimmed,
    and neither userId nor idNumber is set, whatever the API replies.  The
    transactions page that refreshes itself knows two kinds of search only:
    there no such text sets the email filter; it is sent as userId when it
    passes the user-id test and as idNumber otherwise, by
    [fetchTransactions] and by the refresh timer alike. *)
Theorem email_search_sets_email_only (s : list N) :
  includes s (str "@") = true ->
  (forall T (reply : ApiResult (option (list T)))
          (st : TransactionsPage.State T),
      TransactionsPage.searchQuery st = s ->
      requested (TransactionsPage.fetchTransactions reply st)
      = Some (mkParams 500 None None (Some (trim s))))
  /\ (forall T (reply : ApiResult (option (list T)))
             (st : TransactionsPagePolling.State T),
         TransactionsPagePolling.searchQuery st = s ->
         exists params,
           requested (TransactionsPagePolling.fetchTransactions reply st)
           = Some params
           /\ requested (TransactionsPagePolling.autoRefresh reply st)
              = Some params
           /\ limit params = 500%Z
           /\ email params = None
           /\ (if is_short_user_id (trim s)
               then userId params = parseInt (trim s)
                    /\ idNumber params = None
               else userId params = None
                    /\ idNumber params = Some (trim s))).
Proof.
  intros Hat. split.
  - intros T reply st <-. by rewrite TransactionsPage_requested, email_params.
  - intros T reply st <-.
    destruct (TransactionsPagePolling_requested reply st) as [-> ->].
    rewrite (polling_email_params _ Hat).
    eexists. split; [done|]. split; [done|].
    by destruct (is_short_user_id _).
Qed.

Lemma email_search_sets_email_only_witness :
  requested (TransactionsPage.fetchTransactions (T := unit) (Resolved None)
               (TransactionsPage.searching (str " a@b.com ")))
  = Some (mkParams 500 None None (Some (trim (str " a@b.com ")))).
Proof.
  apply (proj1 (email_search_sets_email_only (str " a@b.com ") eq_refl)).
  reflexivity.
Defined.

(** C5: a search text made of at most 3 decimal digits whose value lies
    strictly between 0 and 10000 is sent as the userId filter, with that
    value, and no other filter is set; by the fetch of both transactions
    pages and by the refresh timer. *)
Theorem short_numeric_search_sets_userId (s : list N) :
  is_numeric s = true -> (length s <= 3)%nat ->
  (0 < decimal_value s < 10000)%Z ->
  (forall T (reply : ApiResult (option (list T)))
          (st : TransactionsPage.State T),
      TransactionsPage.searchQuery st = s ->
      requested (TransactionsPage.fetchTransactions reply st)
      = Some (mkParams 500 (Some (decimal_value s)) None None))
  /\ (forall T (reply : ApiResult (option (list T)))
             (st : TransactionsPagePolling.State T),
         TransactionsPagePolling.searchQuery st = s ->
         requested (TransactionsPagePolling.fetchTransactions reply st)
         = Some (mkParams 500 (Some (decimal_value s)) None None)
         /\ requested (TransactionsPagePolling.autoRefresh reply st)
            = Some (mkParams 500 (Some (decimal_value s)) None None)).
Proof.
  intros Hn Hl Hv. destruct (short_numeric_params s Hn Hl Hv) as [Hp Hq].
  split.
  - intros T reply st <-. by rewrite TransactionsPage_requested, Hp.
  - intros T reply st <-.
    destruct (TransactionsPagePolling_requested reply st) as [-> ->].
    by rewrite Hq.
Qed.

Lemma short_numeric_search_sets_userId_witness :
  requested (TransactionsPage.fetchTransactions (T := unit) (Resolved None)
               (TransactionsPage.searching (str "042")))
  = Some (mkParams 500 (Some (decimal_value (str "042"))) None None).
Proof.
  apply (proj1 (short_numeric_search_sets_userId (str "042")
                  eq_refl ltac:(simpl; lia) ltac:(vm_compute; split; reflexivity))).
  reflexivity.
Defined.

(** C6 as stated fails on a blank search text: it is not empty, has no
    [@] and is not numeric, yet no filter at all is set, because the page
    trims the text and skips the classifier when nothing is left. *)
Lemma blank_search_sets_no_filter :
  str " " <> []
  /\ includes (str " ") (str "@") = false
  /\ is_numeric (str " ") = false
  /\ requested (TransactionsPage.fetchTransactions (T := unit) (Resolved None)
                  (TransactionsPage.searching (str " ")))
     = Some (mkParams 500 None None None)
  /\ requested (TransactionsPagePolling.fetchTransactions (T := unit)
                  (Resolved None) (TransactionsPagePolling.searching (str " ")))
     = Some (mkParams 500 None None None).
Proof. repeat split; try reflexivity. discriminate. Qed.

(** C6, amended: when the trimmed search text is not empty, has no [@] and
    fails the user-id test (at most 3 characters and [parseInt] reads a
    number strictly between 0 and 10000), it is sent as the idNumber filter
    and no other filter is set, on both transactions pages; so is the
    13-digit text 1234567890123. *)
Theorem other_search_sets_idNumber {T : Type}
    (reply : ApiResult (option (list T))) :
  (forall (st : TransactionsPage.State T)
          (st' : TransactionsPagePolling.State T) (s : list N),
      TransactionsPage.searchQuery st = s ->
      TransactionsPagePolling.searchQuery st' = s ->
      truthy (trim s) = true ->
      includes s (str "@") = false ->
      is_short_user_id (trim s) = false ->
      requested (TransactionsPage.fetchTransactions reply st)
      = Some (mkParams 500 None (Some (trim s)) None)
      /\ requested (TransactionsPagePolling.fetchTransactions reply st')
         = Some (mkParams 500 None (Some (trim s)) None)
      /\ requested (TransactionsPagePolling.autoRefresh reply st')
         = Some (mkParams 500 None (Some (trim s)) None))
  /\ requested (TransactionsPage.fetchTransactions reply
                  (TransactionsPage.searching (str "1234567890123")))
     = Some (mkParams 500 None (Some (str "1234567890123")) None)
  /\ requested (TransactionsPagePolling.fetchTransactions reply
                  (TransactionsPagePolling.searching (str "1234567890123")))
     = Some (mkParams 500 None (Some (str "1234567890123")) None).
Proof.
  split; [|destruct reply; split; reflexivity].
  intros st st' s <- Hs Hne Hat Hid.
  destruct (other_params _ Hne Hat Hid) as [Hp Hq].
  rewrite TransactionsPage_requested, Hp.
  destruct (TransactionsPagePolling_requested reply st') as [-> ->].
  by rewrite Hs, Hq.
Qed.

Lemma other_search_sets_idNumber_witness :
  requested (TransactionsPage.fetchTransactions (T := unit) (Resolved None)
               (TransactionsPage.searching (str " 0042 ")))
  = Some (mkParams 500 None (Some (trim (str " 0042 "))) None).
Proof.
  apply (proj1 (other_search_sets_idNumber (T := unit) (Resolved None))
           (TransactionsPage.searching (str " 0042 "))
           (TransactionsPagePolling.searching (str " 0042 "))
           (str " 0042 ") eq_refl eq_refl eq_refl eq_refl eq_refl).
Defined.

(** In the words of the claim, for numeric texts: a string of digits that
    is longer than 3 characters, or whose value is 0, goes to idNumber. *)
Lemma long_numeric_search_sets_idNumber (s : list N) :
  is_numeric s = true ->
  (3 < length s)%nat \/ decimal_value s = 0%Z ->
  TransactionsPage.fetchTransactions_params s = mkParams 500 None (Some s) None
  /\ TransactionsPagePolling.fetchTransactions_params s
     = mkParams 500 None (Some s) None.
Proof.
  intros Hn Hcase.
  pose proof (other_params s) as Hgen.
  rewrite (trim_numeric s Hn) in Hgen. apply Hgen.
  - by apply andb_true_iff in Hn as [-> _].
  - by apply numeric_no_at.
  - unfold is_short_user_id. rewrite (parseInt_numeric s Hn). simpl.
    destruct Hcase as [Hlen | ->].
    + destruct (Nat.leb_spec (length s) 3); [lia | done].
    + by rewrite andb_false_r.
Qed.

(** ** Adding points *)

(** On a string of digits the amount test accepts exactly the positive
    values. *)
Lemma numeric_amount (a : jsstring) :
  is_numeric a = true ->
  UserDetails.invalid_amount (Some a) = negb (0 <? decimal_value a)%Z.
Proof.
  intros Hn. unfold UserDetails.invalid_amount.
  rewrite (parseInt_numeric a Hn). simpl.
  apply andb_true_iff in Hn as [-> _]. simpl.
  destruct (Z.leb_spec (decimal_value a) 0), (Z.ltb_spec 0 (decimal_value a));
    simpl; lia || done.
Qed.

(** An amount that fails the test is answered with the error toast and
    nothing is sent. *)
Lemma UserDetails_invalid_amount_rejected userId prompt now post st :
  UserDetails.invalid_amount (prompt UserDetails.amount_question) = true ->
  UserDetails.handleAddPoints userId prompt now post st
  = (UserDetails.showToast (str "Please enter a valid amount") error st,
     [UserDetails.Prompt UserDetails.amount_question
        (prompt UserDetails.amount_question)]).
Proof. intros Hinv. unfold UserDetails.handleAddPoints. by rewrite Hinv. Qed.

(** The request is sent exactly when the amount passes the test. *)
Lemma UserDetails_posts_iff userId prompt now post st :
  (exists body,
      UserDetails.PostPoints userId body
      ∈ (UserDetails.handleAddPoints userId prompt now post st).2)
  <-> UserDetails.invalid_amount (prompt UserDetails.amount_question) = false.
Proof.
  unfold UserDetails.handleAddPoints.
  destruct (UserDetails.invalid_amount _) eqn:Hinv; simpl.
  - split; [|done]. intros [body Hin].
    apply list_elem_of_singleton in Hin. discriminate.
  - split; [done|]. intros _. eexists.
    destruct post; simpl; repeat (apply elem_of_cons; (by left) || right).
Qed.

Lemma Dashboard_invalid_amount_rejected `{Dashboard.CaseMapping}
    userId post replies st :
  UserDetails.invalid_amount (Some (Dashboard.pointsAmount st)) = true ->
  Dashboard.handleAddPoints userId post replies st
  = (Dashboard.showToast (str "Please enter a valid amount") error st, []).
Proof.
  intros Hinv. unfold Dashboard.handleAddPoints.
  unfold UserDetails.invalid_amount in Hinv. by rewrite Hinv.
Qed.

(** On the dashboard too the request is sent exactly when the amount
    passes the test, and it is the first thing sent. *)
Lemma Dashboard_posts_iff `{Dashboard.CaseMapping} userId post replies st :
  (exists body rest,
      (Dashboard.handleAddPoints userId post replies st).2
      = Dashboard.PostPoints userId body :: rest)
  <-> UserDetails.invalid_amount (Some (Dashboard.pointsAmount st)) = false.
Proof.
  unfold Dashboard.handleAddPoints, UserDetails.invalid_amount.
  destruct (_ || _ || _) eqn:Hinv; simpl.
  - split; [|done]. intros (body & rest & Heq). discriminate.
  - split; [done|]. intros _. destruct post as [r|e]; [|by eexists _, _].
    destruct (Dashboard.fetchData replies _) as [st3 tr]. by eexists _, _.
Qed.

(** C2, at the input where the code departs from it: the text [12abc]
    typed into the amount dialog of the user details page is not numeric,
    yet the handler accepts it and posts the amount 12 that [parseInt] reads
    from its first two characters. *)
Theorem prompt_12abc_is_posted userId now post st :
  is_numeric (str "12abc") = false
  /\ exists rest,
      (UserDetails.handleAddPoints userId UserDetails.types_12abc now post st).2
      = [UserDetails.Prompt UserDetails.amount_question (Some (str "12abc"));
         UserDetails.Prompt UserDetails.description_question None;
         UserDetails.PostPoints userId
           (mkPointsBody (Some 12%Z) (str "Admin added points"))] ++ rest.
Proof.
  split; [reflexivity|]. destruct post; eexists; reflexivity.
Qed.

(** ** Order status *)

Section OrderStatus.

Context `{Dashboard.CaseMapping}.
Import Dashboard.

Lemma applyPendingOrders_quiet (l : list Order) (st : State) :
  (applyPendingOrders l false st).2 = [].
Proof.
  unfold applyPendingOrders.
  by destruct (negb (hasLoadedOrders (setPendingOrders l st))).
Qed.

(** [fetchData] sends its four requests and, at most, logs an error. *)
Lemma fetchData_trace (replies : FetchReplies) (st : State) :
  (fetchData replies st).2 = fetch_requests
  \/ (fetchData replies st).2
     = fetch_requests ++ [ConsoleError (str "Failed to fetch data:")].
Proof.
  unfold fetchData.
  destruct (pendingRes replies), (approvedRes replies), (ordersRes replies),
    (rejectedRes replies); simpl; auto.
  match goal with
  | |- context [applyPendingOrders ?l false ?s] =>
      pose proof (applyPendingOrders_quiet l s) as Hq;
      destruct (applyPendingOrders l false s) as [st3 tr]
  end.
  simpl in *. subst tr. by left.
Qed.

Lemma fetchData_no_dialog_no_patch (replies : FetchReplies) (st : State) :
  forallb (fun e => negb (is_dialog e) && negb (is_patch e))
    (fetchData replies st).2 = true.
Proof. by destruct (fetchData_trace replies st) as [-> | ->]. Qed.

(** C7: with status REJECTED the handler first asks for confirmation.  If
    the user declines, the state is returned as it was and the dialog is
    the only thing that happened: no request is sent.  A PATCH
    /orders/{id}/status in the trace implies that the user confirmed, and
    it comes right after the confirmed dialog. *)
Theorem reject_waits_for_confirmation (orderId : Z)
    (confirm : list N -> bool) (patch : ApiResult unit)
    (replies : FetchReplies) (st : State) :
  let result := handleOrderStatus orderId REJECTED confirm patch replies st in
  (confirm reject_question = false ->
   result = (st, [Confirm reject_question false]))
  /\ (forall o s, PatchOrderStatus o s ∈ result.2 ->
      confirm reject_question = true
      /\ exists rest,
          result.2 = Confirm reject_question true
                     :: PatchOrderStatus orderId REJECTED :: rest).
Proof.
  simpl. unfold handleOrderStatus.
  destruct (confirm reject_question) eqn:Hc; simpl; split; try done.
  - intros o s _. split; [done|].
    destruct patch as [u|e]; [|by eexists].
    destruct (fetchData replies _) as [st2 tr]. by eexists.
  - intros o s Hin. apply list_elem_of_singleton in Hin. discriminate.
Qed.

(** C9: with status COMPLETED the handler sends PATCH
    /orders/{id}/status at once: the request is the first effect, no
    confirmation dialog occurs anywhere in the trace, and the outcome does
    not depend on what the user would have answered.  With status REJECTED
    the first effect is the confirmation dialog. *)
Theorem complete_skips_confirmation (orderId : Z)
    (confirm : list N -> bool) (patch : ApiResult unit)
    (replies : FetchReplies) (st : State) :
  let result := handleOrderStatus orderId COMPLETED confirm patch replies st in
  (exists rest, result.2 = PatchOrderStatus orderId COMPLETED :: rest)
  /\ forallb (fun e => negb (is_dialog e)) result.2 = true
  /\ (forall confirm',
        handleOrderStatus orderId COMPLETED confirm' patch replies st = result)
  /\ (exists answer rest,
        (handleOrderStatus orderId REJECTED confirm patch replies st).2
        = Confirm reject_question answer :: rest).
Proof.
  simpl. unfold handleOrderStatus. simpl. repeat split.
  - destruct patch as [u|e]; [|by eexists].
    destruct (fetchData replies _) as [st2 tr]. by eexists.
  - destruct patch as [u|e]; [|done].
    pose proof (fetchData_no_dialog_no_patch replies
                  (showToast (str "Order " ++ status_lower COMPLETED
                              ++ str " successfully!") success st)) as Hq.
    destruct (fetchData replies _) as [st2 tr]. simpl in *.
    apply forallb_elem. intros e He.
    apply (proj1 (forallb_elem _ _) Hq) in He.
    by apply andb_true_iff in He as [? _].
  - exists (confirm reject_question).
    destruct (confirm reject_question); simpl; [|by eexists].
    destruct patch as [u|e]; [|by eexists].
    destruct (fetchData replies _) as [st2 tr]. by eexists.
Qed.

End OrderStatus.

Lemma reject_waits_for_confirmation_witness :
  Dashboard.handleOrderStatus (H := Dashboard.ascii_case) 7 Dashboard.REJECTED
    (fun _ => false) (Resolved tt) Dashboard.offline Dashboard.initial
  = (Dashboard.initial,
     [Dashboard.Confirm Dashboard.reject_question false]).
Proof.
  apply (proj1 (reject_waits_for_confirmation (H := Dashboard.ascii_case) 7
                  (fun _ => false) (Resolved tt) Dashboard.offline
                  Dashboard.initial)).
  reflexivity.
Defined.

(** ** Login *)




(** ** The order lists of the dashboard *)

Section OrderLists.

Context `{Dashboard.CaseMapping}.
Import Dashboard.

Lemma filter_elem {A} (f : A -> bool) (l : list A) (x : A) :
  x ∈ List.filter f l <-> x ∈ l /\ f x = true.
Proof. rewrite !list_elem_of_In. apply filter_In. Qed.

(** Grouping invents no order: what holds of every order of the list
    holds of every order of every group. *)
Lemma groupByUser_keeps (P : Order -> Prop) (l : list Order) :
  Forall P l ->
  forall k g, groupByUser l !! k = Some g -> Forall P g.
Proof.
  unfold groupByUser.
  assert (Hgen : forall (l : list Order) (acc : gmap Z (list Order)),
             Forall P l ->
             (forall k g, acc !! k = Some g -> Forall P g) ->
             forall k g,
               foldl (fun acc order =>
                        <[user_id order :=
                            default [] (acc !! user_id order) ++ [order]]> acc)
                     acc l !! k = Some g ->
               Forall P g).
  { clear l. induction l as [|o l IH]; intros acc Hl Hacc k g; simpl.
    - apply Hacc.
    - inversion Hl as [|? ? Ho Hl']; subst. apply IH; [done|].
      intros k' g'. rewrite lookup_insert. case_decide as Hk.
      + intros [= <-]. apply Forall_app. split; [|by apply Forall_singleton].
        destruct (acc !! user_id o) as [g0|] eqn:Hg0; simpl; [|done].
        by apply (Hacc (user_id o)).
      + apply Hacc. }
  intros Hl. apply (Hgen l ∅ Hl). intros k g. by rewrite lookup_empty.
Qed.

Lemma rendered_keeps (P : Order -> Prop) (l : list Order) :
  Forall P l -> Forall P (rendered (groupByUser l)).
Proof.
  intros Hl. unfold rendered. apply Forall_concat, Forall_fmap.
  apply Forall_forall. intros [k g] Hkg. simpl.
  apply elem_of_map_to_list in Hkg. by apply (groupByUser_keeps P l Hl k).
Qed.

Lemma filteredOrders_pending (st : State) :
  Forall (fun o => getOrderStatus o = str "PENDING") (filteredOrders st).
Proof.
  apply Forall_forall. intros o Ho. unfold filteredOrders in Ho.
  apply filter_elem in Ho as [_ Ho]. unfold jsstring_eqb in Ho.
  by case_bool_decide.
Qed.

Lemma filteredRejectedOrders_rejected (st : State) :
  Forall (fun o => getOrderStatus o = str "REJECTED")
    (filteredRejectedOrders st).
Proof.
  apply Forall_forall. intros o Ho. unfold filteredRejectedOrders in Ho.
  apply filter_elem in Ho as [_ Ho]. unfold jsstring_eqb in Ho.
  by case_bool_decide.
Qed.

(** What [fetchData] stores as rejected orders is already restricted to
    status REJECTED; the pending orders are stored as they came. *)
Lemma fetchData_rejected_state (replies : FetchReplies) (st : State) :
  Forall (fun o => getOrderStatus o = str "REJECTED") (rejectedOrders st) ->
  Forall (fun o => getOrderStatus o = str "REJECTED")
    (rejectedOrders (fetchData replies st).1).
Proof.
  intros Hst. unfold fetchData.
  destruct (pendingRes replies), (approvedRes replies), (ordersRes replies),
    (rejectedRes replies); simpl; try done.
  destruct (applyPendingOrders _ false _) as [st3 tr]. simpl.
  apply Forall_forall. intros o Ho.
  apply filter_elem in Ho as [_ Ho]. unfold jsstring_eqb in Ho.
  by case_bool_decide.
Qed.

(** C10: every order drawn in the rejected tab has a status that, in
    upper case and trimmed, is REJECTED, and every order drawn in the
    pending tab one that is PENDING.  This holds in every state of the page,
    so whatever /orders/rejected and /orders/pending returned, after every
    [fetchData] and for every search text. *)
Theorem rendered_orders_match_their_tab (st : State) :
  (Forall (fun o => getOrderStatus o = str "REJECTED")
     (renderedRejectedOrders st)
   /\ Forall (fun o => getOrderStatus o = str "PENDING")
        (renderedPendingOrders st))
  /\ forall (replies : FetchReplies) (query : list N),
      let st' := setSearchQuery query (fetchData replies st).1 in
      Forall (fun o => getOrderStatus o = str "REJECTED")
        (renderedRejectedOrders st')
      /\ Forall (fun o => getOrderStatus o = str "PENDING")
           (renderedPendingOrders st').
Proof.
  assert (Hall : forall s : State,
             Forall (fun o => getOrderStatus o = str "REJECTED")
               (renderedRejectedOrders s)
             /\ Forall (fun o => getOrderStatus o = str "PENDING")
                  (renderedPendingOrders s)).
  { intros s. split.
    - apply rendered_keeps, filteredRejectedOrders_rejected.
    - apply rendered_keeps, filteredOrders_pending. }
  split; [apply Hall | intros replies query; apply Hall].
Qed.

End OrderLists.

Section OrderListsComplete.

Context `{Dashboard.CaseMapping}.
Import Dashboard.

(** Grouping loses no order either. *)
Lemma groupByUser_complete (l : list Order) (o : Order) :
  o ∈ l -> o ∈ rendered (groupByUser l).
Proof.
  unfold groupByUser.
  assert (Hgen : forall (l : list Order) (acc : gmap Z (list Order)),
             o ∈ l \/ (exists k g, acc !! k = Some g /\ o ∈ g) ->
             exists k g,
               foldl (fun acc order =>
                        <[user_id order :=
                            default [] (acc !! user_id order) ++ [order]]> acc)
                     acc l !! k = Some g /\ o ∈ g).
  { clear l. induction l as [|a l IH]; intros acc Hcase; simpl.
    - destruct Hcase as [Hin | Hacc]; [inversion Hin | done].
    - apply IH. destruct Hcase as [[-> | Hin]%elem_of_cons | (k & g & Hk & Hg)].
      + right. exists (user_id a), (default [] (acc !! user_id a) ++ [a]).
        rewrite lookup_insert_eq. split; [done|].
        apply elem_of_app. right. by apply list_elem_of_singleton.
      + by left.
      + right. destruct (decide (user_id a = k)) as [<- | Hne].
        * exists (user_id a), (default [] (acc !! user_id a) ++ [a]).
          rewrite lookup_insert_eq. split; [done|].
          rewrite Hk. simpl. apply elem_of_app. by left.
        * exists k, g. by rewrite lookup_insert_ne. }
  intros Hin. destruct (Hgen l ∅ (or_introl Hin)) as (k & g & Hk & Hg).
  unfold rendered. apply list_elem_of_In, in_concat. exists g.
  split; [|by apply list_elem_of_In].
  apply list_elem_of_In. apply (list_elem_of_fmap_2 snd _ (k, g)).
  by apply elem_of_map_to_list.
Qed.

End OrderListsComplete.

Example rejected_tab_example :
  let o1 := Dashboard.mkOrder 1 (str "A-1") 5 (str "Ann") (str "900")
              None None None (Some (str " rejected ")) in
  let o2 := Dashboard.mkOrder 2 (str "A-2") 5 (str "Ann") (str "900")
              None None None (Some (str "PENDING")) in
  let o3 := Dashboard.mkOrder 3 (str "A-3") 6 (str "Bob") (str "901")
              None None None None in
  let listed :=
    Resolved (Dashboard.mkListResponse None (Some [o1; o2; o3])) in
  let st :=
    (Dashboard.fetchData (H := Dashboard.ascii_case)
       (Dashboard.mkReplies listed listed listed listed)
       Dashboard.initial).1 in
  Dashboard.renderedRejectedOrders (H := Dashboard.ascii_case) st = [o1]
  /\ Dashboard.renderedPendingOrders (H := Dashboard.ascii_case) st = [o2]
  /\ Dashboard.pendingOrders st = [o1; o2; o3]
  /\ Dashboard.rejectedOrders st = [o1].
Proof. vm_compute. repeat split; reflexivity. Qed.

(** ** The amount of a reward row *)

Section RewardRows.

Import TransactionRows.
Context {number : Type} `{JSNumber number}.

Lemma wanted_test (t p : Transaction number) :
  wanted t p ->
  (user_id p =? user_id t)%Z && is_reward_row p = true
  /\ exists figure, reward_text p = Some figure.
Proof.
  intros [Hu [Hrow Hfig]%andb_true_iff]. split.
  - rewrite Hrow, andb_true_r. by apply Z.eqb_eq.
  - apply bool_decide_eq_true in Hfig as [figure Hfig]. by exists figure.
Qed.

Lemma unwanted_test (t p : Transaction number) :
  ~ wanted t p ->
  (user_id p =? user_id t)%Z && is_reward_row p = false
  \/ reward_text p = None.
Proof.
  intros Hno. unfold wanted, is_reward_transaction in Hno.
  destruct (Z.eqb_spec (user_id p) (user_id t)) as [Hu|Hu]; [|by left].
  destruct (is_reward_row p); [|by left].
  destruct (reward_text p) as [figure|] eqn:Hfig; [|by right].
  destruct Hno. by split.
Qed.

(** The loop returns the figure of the first wanted row. *)
Lemma previousTotalReward_first (later : list (Transaction number))
    (t p : Transaction number) (j : nat) :
  later !! j = Some p -> wanted t p ->
  (forall k q, (k < j)%nat -> later !! k = Some q -> ~ wanted t q) ->
  previousTotalReward later t = cumulative_figure p.
Proof.
  revert j. induction later as [|a later IH]; intros j Hj Hp Hfirst; [done|].
  destruct j as [|j]; simpl in *.
  - injection Hj as ->.
    destruct (wanted_test t p Hp) as [-> [figure Hfig]].
    unfold cumulative_figure. by rewrite Hfig.
  - assert (Hrest : previousTotalReward later t = cumulative_figure p).
    { apply (IH j); [done | done |].
      intros k q Hk Hq. apply (Hfirst (S k)); [lia | done]. }
    destruct (unwanted_test t a (Hfirst 0%nat a ltac:(lia) eq_refl))
      as [-> | Hnone]; [done|].
    rewrite Hnone. by destruct (_ && _).
Qed.

(** Without a wanted row it returns its initial 0. *)
Lemma previousTotalReward_none (later : list (Transaction number))
    (t : Transaction number) :
  (forall k q, later !! k = Some q -> ~ wanted t q) ->
  previousTotalReward later t = num_zero.
Proof.
  induction later as [|a later IH]; intros Hnone; [done|]. simpl.
  assert (Hrest : previousTotalReward later t = num_zero).
  { apply IH. intros k q Hq. by apply (Hnone (S k)). }
  destruct (unwanted_test t a (Hnone 0%nat a eq_refl)) as [-> | Ha]; [done|].
  rewrite Ha. by destruct (_ && _).
Qed.

Lemma displayAmount_reward (txs : list (Transaction number)) (i : nat)
    (t : Transaction number) :
  is_reward_transaction t = true ->
  displayAmount txs i t
  = if num_positive (cumulative_figure t)
    then round2 (num_sub (cumulative_figure t)
                   (previousTotalReward (drop (S i) txs) t))
    else num_zero.
Proof.
  intros [Hrow _]%andb_true_iff. unfold displayAmount, cumulative_figure.
  by rewrite Hrow.
Qed.

Variable timeOf : list N -> Z.

Lemma wanted_dec (t p : Transaction number) : wanted t p \/ ~ wanted t p.
Proof.
  unfold wanted.
  destruct (Z.eq_dec (user_id p) (user_id t)) as [Hu|Hu]; [|right; tauto].
  destruct (is_reward_transaction p); [by left | right].
  by intros [_ ?].
Qed.

(** The first wanted row of a list, if it has one. *)
Lemma first_wanted (later : list (Transaction number))
    (t : Transaction number) :
  (exists k p, later !! k = Some p /\ wanted t p
     /\ forall k' q, (k' < k)%nat -> later !! k' = Some q -> ~ wanted t q)
  \/ (forall k q, later !! k = Some q -> ~ wanted t q).
Proof.
  induction later as [|a later IH].
  - right. intros k q Hq. by rewrite lookup_nil in Hq.
  - destruct (wanted_dec t a) as [Ha|Ha].
    + left. exists 0%nat, a. split; [done|]. split; [done|].
      intros k' q Hlt. lia.
    + destruct IH as [(k & p & Hk & Hp & Hfirst) | Hnone].
      * left. exists (S k), p. split; [done|]. split; [done|].
        intros [|k'] q Hlt Hq; simpl in Hq.
        -- by injection Hq as <-.
        -- apply (Hfirst k' q); [lia | done].
      * right. intros [|k] q Hq; simpl in Hq.
        -- by injection Hq as <-.
        -- by apply (Hnone k q).
Qed.

(** In a list sorted by recency, the earlier rows are the rows further
    down. *)
Lemma earlier_is_later (txs : list (Transaction number)) (i j : nat)
    (t p : Transaction number) :
  sorted_by_recency timeOf txs ->
  txs !! i = Some t -> txs !! j = Some p ->
  earlier timeOf i t j p <-> (i < j)%nat.
Proof.
  intros Hsorted Hi Hj. split.
  - intros [Hlt | [_ Hij]]; [|done].
    destruct (lt_eq_lt_dec i j) as [[Hij | ->] | Hji]; [done | |].
    + rewrite Hi in Hj. injection Hj as ->. lia.
    + pose proof (Hsorted j i p t Hj Hi Hji). lia.
  - intros Hij. pose proof (Hsorted i j t p Hi Hj Hij) as Hle.
    unfold earlier.
    destruct (Z.eq_dec (recency timeOf p) (recency timeOf t)); [by right|].
    left. lia.
Qed.

Lemma earlier_reward_is_later (txs : list (Transaction number)) (i j : nat)
    (t p : Transaction number) :
  sorted_by_recency timeOf txs ->
  txs !! i = Some t ->
  earlier_reward timeOf txs i t j p
  <-> txs !! j = Some p /\ wanted t p /\ (i < j)%nat.
Proof.
  intros Hsorted Hi. unfold earlier_reward, wanted. split.
  - intros (Hj & Hu & Hr & He).
    by apply (earlier_is_later txs i j t p Hsorted Hi Hj) in He.
  - intros (Hj & [Hu Hr] & Hij).
    by apply (earlier_is_later txs i j t p Hsorted Hi Hj) in Hij.
Qed.

(** C3, amended: in a list sorted descending by recency (rows of the same
    instant in either order), a reward transaction (type ADDED, marked
    "Weekly Sale Reward", description with a figure [Reward: N]) whose
    figure is greater than 0 is displayed with that figure minus the figure
    of the nearest earlier reward transaction of the same user in the list,
    or minus 0 when the list has no earlier one, rounded by
    [Math.round(x * 100) / 100]; and one of the two cases always applies. *)
Theorem incremental_reward_amount (txs : list (Transaction number))
    (i : nat) (t : Transaction number) :
  sorted_by_recency timeOf txs ->
  txs !! i = Some t ->
  is_reward_transaction t = true ->
  num_positive (cumulative_figure t) = true ->
  (forall j p, nearest_earlier_reward timeOf txs i t j p ->
     displayAmount txs i t
     = round2 (num_sub (cumulative_figure t) (cumulative_figure p)))
  /\ ((forall j p, ~ earlier_reward timeOf txs i t j p) ->
      displayAmount txs i t
      = round2 (num_sub (cumulative_figure t) num_zero))
  /\ ((exists j p, nearest_earlier_reward timeOf txs i t j p)
      \/ (forall j p, ~ earlier_reward timeOf txs i t j p)).
Proof.
  intros Hsorted Hi Ht Hpos.
  rewrite (displayAmount_reward txs i t Ht), Hpos. split; [|split].
  - intros j p [Hearlier Hnearest].
    pose proof Hearlier as Hp.
    apply (earlier_reward_is_later txs i j t p Hsorted Hi) in Hp
      as (Hj & Hp & Hij).
    rewrite (previousTotalReward_first (drop (S i) txs) t p (j - S i)%nat).
    + done.
    + rewrite lookup_drop. by replace (S i + (j - S i))%nat with j by lia.
    + done.
    + intros k q Hk Hq Hwanted. rewrite lookup_drop in Hq.
      assert (Hq_earlier : earlier_reward timeOf txs i t (S i + k)%nat q).
      { apply (earlier_reward_is_later txs i _ t q Hsorted Hi).
        repeat split; [done | apply Hwanted | apply Hwanted | lia]. }
      destruct (Hnearest _ q Hq_earlier) as [Heq | Hbefore]; [lia|].
      apply (earlier_is_later txs j (S i + k)%nat p q Hsorted Hj Hq) in Hbefore.
      lia.
  - intros Hnone. rewrite previousTotalReward_none; [done|].
    intros k q Hq Hwanted. rewrite lookup_drop in Hq.
    apply (Hnone (S i + k)%nat q).
    apply (earlier_reward_is_later txs i _ t q Hsorted Hi).
    repeat split; [done | apply Hwanted | apply Hwanted | lia].
  - destruct (first_wanted (drop (S i) txs) t)
      as [(k & p & Hk & Hp & Hfirst) | Hnone].
    + left. exists (S i + k)%nat, p. rewrite lookup_drop in Hk.
      assert (Hearlier : earlier_reward timeOf txs i t (S i + k)%nat p).
      { apply (earlier_reward_is_later txs i _ t p Hsorted Hi).
        repeat split; [done | apply Hp | apply Hp | lia]. }
      split; [done|]. intros k' q Hq.
      apply (earlier_reward_is_later txs i _ t q Hsorted Hi) in Hq
        as (Hk' & Hq & Hlt).
      destruct (lt_eq_lt_dec k' (S i + k)%nat) as [[Hlow | ->] | Hhigh].
      * destruct (Hfirst (k' - S i)%nat q); [lia | | done].
        rewrite lookup_drop.
        by replace (S i + (k' - S i))%nat with k' by lia.
      * by left.
      * right.
        by apply (earlier_is_later txs (S i + k)%nat k' p q Hsorted Hk Hk').
    + right. intros j p Hearlier.
      apply (earlier_reward_is_later txs i _ t p Hsorted Hi) in Hearlier
        as (Hj & Hp & Hij).
      apply (Hnone (j - S i)%nat p); [|done].
      rewrite lookup_drop. by replace (S i + (j - S i))%nat with j by lia.
Qed.

(** C4, amended: a reward transaction after which the fetched list holds
    no reward transaction of the same user is displayed with its own figure
    minus 0, rounded, when that figure is greater than 0, and with 0
    otherwise. *)
Theorem reward_without_earlier_one (txs : list (Transaction number))
    (i : nat) (t : Transaction number) :
  txs !! i = Some t ->
  is_reward_transaction t = true ->
  (forall j p, (i < j)%nat -> txs !! j = Some p ->
     user_id p = user_id t -> is_reward_transaction p = false) ->
  displayAmount txs i t
  = if num_positive (cumulative_figure t)
    then round2 (num_sub (cumulative_figure t) num_zero)
    else num_zero.
Proof.
  intros Hi Ht Hnone.
  rewrite (displayAmount_reward txs i t Ht), previousTotalReward_none; [done|].
  intros k q Hq [Hqu Hqr]. rewrite lookup_drop in Hq.
  rewrite (Hnone (S i + k)%nat q) in Hqr; [done | lia | done | done].
Qed.

End RewardRows.

(** ** The rows computed with exact arithmetic *)

Section ExactRows.

Import TransactionRows.
#[local] Existing Instance exact.

Lemma sortedb_sound {number : Type} (timeOf : list N -> Z)
    (txs : list (Transaction number)) :
  sortedb timeOf txs = true -> sorted_by_recency timeOf txs.
Proof.
  induction txs as [|t rest IH]; intros Hs i j ti tj Hi Hj Hij.
  - by rewrite lookup_nil in Hi.
  - simpl in Hs. apply andb_true_iff in Hs as [Hhead Hrest].
    destruct j as [|j]; [lia|]. simpl in Hj. destruct i as [|i]; simpl in Hi.
    + injection Hi as <-.
      apply list_elem_of_lookup_2 in Hj.
      apply (proj1 (forallb_elem _ _) Hhead) in Hj. by apply Z.leb_le.
    + apply (IH Hrest i j); [done | done | lia].
Qed.

Example week_rows_amounts :
  displayAmounts week_rows
  = [Rat (369 # 50); Rat (29 # 4); Rat 7; Rat (513 # 100)].
Proof. reflexivity. Qed.

(** In [week_rows] the nearest earlier reward of the first row is the
    last row; the reward of user 2 shares the instant of the first row. *)
Lemma week_rows_nearest :
  nearest_earlier_reward iso_instant week_rows 0 week_first 3 week_last.
Proof.
  split.
  - repeat split. by left.
  - intros k q (Hk & Hu & Hr & He).
    destruct k as [|[|[|[|k]]]]; simpl in Hk; [| | | by left | done];
      injection Hk as <-.
    + destruct He as [He | [_ He]]; [vm_compute in He; discriminate | lia].
    + vm_compute in Hu. discriminate.
    + vm_compute in Hr. discriminate.
Qed.

Lemma incremental_reward_amount_witness :
  displayAmount week_rows 0 week_first
  = round2 (num_sub (cumulative_figure week_first)
              (cumulative_figure week_last)).
Proof.
  assert (Hsorted : sorted_by_recency iso_instant week_rows)
    by (apply sortedb_sound; reflexivity).
  assert (Hpos : num_positive (cumulative_figure week_first) = true)
    by reflexivity.
  apply (proj1 (incremental_reward_amount iso_instant week_rows 0 week_first
                  Hsorted eq_refl eq_refl Hpos) 3%nat week_last).
  exact week_rows_nearest.
Defined.

Lemma reward_without_earlier_one_witness :
  displayAmount lone_rows 0 lone_row
  = if num_positive (cumulative_figure lone_row)
    then round2 (num_sub (cumulative_figure lone_row) num_zero)
    else num_zero.
Proof.
  apply (reward_without_earlier_one lone_rows 0).
  - reflexivity.
  - reflexivity.
  - intros [|j] p Hj Hp; [lia | done].
Defined.

(** C4 as stated fails: the only reward of a user in the list has no
    prior reward transaction in it, and is displayed with its figure 12.5,
    not with 0. *)
Lemma lone_reward_shows_its_figure :
  lone_rows !! 0%nat = Some lone_row
  /\ is_reward_transaction lone_row = true
  /\ drop 1 lone_rows = []
  /\ displayAmount lone_rows 0 lone_row = Rat (25 # 2)
  /\ displayAmount lone_rows 0 lone_row <> num_zero.
Proof. repeat split; try reflexivity. discriminate. Qed.

(** C3 as stated fails on a reward transaction whose figure is 0: its
    nearest earlier reward has the figure 5, the difference is -5, and the
    row is displayed with 0. *)
Lemma zero_figure_shows_zero :
  sorted_by_recency iso_instant zero_rows
  /\ zero_rows !! 0%nat = Some zero_row
  /\ is_reward_transaction zero_row = true
  /\ nearest_earlier_reward iso_instant zero_rows 0 zero_row 1 five_row
  /\ round2 (num_sub (cumulative_figure zero_row) (cumulative_figure five_row))
     = Rat (-5 # 1)
  /\ displayAmount zero_rows 0 zero_row = Rat 0
  /\ displayAmount zero_rows 0 zero_row
     <> round2 (num_sub (cumulative_figure zero_row)
                  (cumulative_figure five_row)).
Proof.
  split; [apply sortedb_sound; reflexivity|].
  repeat split; try reflexivity.
  - by left.
  - intros k q (Hk & Hu & Hr & He).
    destruct k as [|[|k]]; simpl in Hk; [| by left | done].
    injection Hk as <-.
    destruct He as [He | [_ He]]; [vm_compute in He; discriminate | lia].
  - discriminate.
Qed.

End ExactRows.

(** ** The functions on examples *)

Example parseInt_prefix : parseInt (str "12abc") = Some 12%Z.
Proof. reflexivity. Qed.

Example parseInt_hex : parseInt (str "  -0x1F") = Some (-31)%Z.
Proof. reflexivity. Qed.

Example parseInt_nan : parseInt (str "abc") = None.
Proof. reflexivity. Qed.

Example parseInt_fraction : parseInt (str "0.5") = Some 0%Z.
Proof. reflexivity. Qed.

Example trim_both_ends : trim (str "  a b  ") = str "a b".
Proof. reflexivity. Qed.

Example search_by_user_id :
  TransactionsPage.fetchTransactions_params (str " 42 ")
  = mkParams 500 (Some 42%Z) None None.
Proof. reflexivity. Qed.

(** [parseInt] stops at the first character that is no digit, so a short
    text that only starts with digits passes the user-id test. *)
Example search_digit_prefix :
  TransactionsPage.fetchTransactions_params (str "1a")
  = mkParams 500 (Some 1%Z) None None
  /\ TransactionsPagePolling.fetchTransactions_params (str "1@")
     = mkParams 500 (Some 1%Z) None None.
Proof. split; reflexivity. Qed.

Example match_reward_leftmost :
  TransactionRows.match_reward (str "x Reward: abc, Reward:12..3x")
  = Some (str "12..3").
Proof. reflexivity. Qed.

(** A row of type ADDED that is not marked as weekly sale reward shows its
    stored amount, whatever figure its description holds. *)
Example unmarked_row_shows_stored_amount :
  TransactionRows.displayAmount (H := TransactionRows.exact)
    [TransactionRows.row 1 "ADDED" "Bonus Reward: 5.5" "2024-03-18T09:30:00Z" 7] 0
    (TransactionRows.row 1 "ADDED" "Bonus Reward: 5.5" "2024-03-18T09:30:00Z" 7)
  = TransactionRows.Rat 7.
Proof. reflexivity. Qed.

Example add_points_on_dashboard :
  let st := Dashboard.mkState [] [] [] [] false (str "25") [] [] None ∅ false in
  (Dashboard.handleAddPoints (H := Dashboard.ascii_case) 3
     (Rejected (Some (str "User not found"))) Dashboard.offline st)
  = (Dashboard.showToast (str "User not found") error st,
     [Dashboard.PostPoints 3 (mkPointsBody (Some 25%Z) (str "Quick Store"));
      Dashboard.ConsoleError (str "Add points error:")]).
Proof. reflexivity. Qed.

Example fetch_fails :
  TransactionsPage.fetchTransactions (T := unit) (Rejected None)
    (TransactionsPage.searching (str "a@b.com"))
  = (TransactionsPage.mkState [] false
       (Some (mkToast (str "Failed to load transactions") error))
       (str "a@b.com") None false,
     [GetTransactions (mkParams 500 None None (Some (str "a@b.com")));
      LogError (str "Failed to fetch transactions:")]).
Proof. reflexivity. Qed.

Example add_points_rejects_zero :
  UserDetails.invalid_amount (Some (str "0")) = true
  /\ UserDetails.invalid_amount (Some (str "-5")) = true
  /\ UserDetails.invalid_amount (Some (str "abc")) = true
  /\ UserDetails.invalid_amount (Some (str "")) = true
  /\ UserDetails.invalid_amount None = true
  /\ UserDetails.invalid_amount (Some (str "15")) = false.
Proof. repeat split; reflexivity. Qed.

Example login_as_user :
  Login.handleSubmit
    (Resolved (Login.mkLoginResponse (str "t")
                 (Some (Login.mkLoginUser (str "USER")))))
    Login.initial
  = (Login.mkState (Login.mkForm [] []) false (str "Admin access required"),
     [Login.PostLogin (Login.mkForm [] [])]).
Proof. reflexivity. Qed.


(** * More proofs *)

(** ** Grouping orders by user *)

Section Grouping.

Import Dashboard DashboardUsers.

Lemma groupByUser_lookup_gen (l : list Order) (acc : gmap Z (list Order))
    (k : Z) :
  foldl (fun acc order =>
           <[user_id order := default [] (acc !! user_id order) ++ [order]]> acc)
        acc l !! k
  = match orders_of k l with
    | [] => acc !! k
    | g => Some (default [] (acc !! k) ++ g)
    end.
Proof.
  revert acc. induction l as [|a l IH]; intros acc; [done|].
  simpl foldl. rewrite IH. unfold orders_of. simpl List.filter.
  destruct (Z.eqb_spec (user_id a) k) as [<- | Hne].
  - rewrite lookup_insert_eq. simpl.
    destruct (List.filter _ l) as [|b g]; [done|].
    by rewrite <- app_assoc.
  - by rewrite lookup_insert_ne.
Qed.

(** X1: the block of a user holds exactly the orders of that user, in the
    order of the list, and there is a block for a user exactly when the
    list has an order of theirs. *)
Theorem groupByUser_blocks (l : list Order) (k : Z) :
  groupByUser l !! k
  = match orders_of k l with [] => None | g => Some g end.
Proof.
  unfold groupByUser. rewrite groupByUser_lookup_gen, lookup_empty.
  by destruct (orders_of k l).
Qed.

Lemma rendered_insert (acc : gmap Z (list Order)) (a : Order) :
  rendered (<[user_id a := default [] (acc !! user_id a) ++ [a]]> acc)
  ≡ₚ rendered acc ++ [a].
Proof.
  unfold rendered. destruct (acc !! user_id a) as [g|] eqn:Hg; simpl.
  - rewrite <- (insert_delete_eq acc).
    rewrite map_to_list_insert by apply lookup_delete_eq.
    rewrite <- (map_to_list_delete acc (user_id a) g Hg). simpl.
    rewrite <- !app_assoc. apply Permutation_app_head, Permutation_app_comm.
  - rewrite map_to_list_insert by done. simpl.
    apply (Permutation_app_comm [a]).
Qed.

(** X2: the cards drawn for a tab are the orders of its filtered list,
    each one once: grouping neither drops nor repeats an order. *)
Theorem rendered_permutation (l : list Order) :
  rendered (groupByUser l) ≡ₚ l.
Proof.
  unfold groupByUser.
  assert (Hgen : forall (l : list Order) (acc : gmap Z (list Order)),
             rendered
               (foldl (fun acc order =>
                         <[user_id order :=
                             default [] (acc !! user_id order) ++ [order]]> acc)
                      acc l)
             ≡ₚ rendered acc ++ l).
  { clear l. induction l as [|a l IH]; intros acc; simpl.
    - by rewrite app_nil_r.
    - rewrite IH, rendered_insert, <- app_assoc. done. }
  rewrite Hgen. unfold rendered. by rewrite map_to_list_empty.
Qed.

End Grouping.

(** ** The dashboard with an empty search box, and its user handlers *)

Section DashboardMore.

Context `{Dashboard.CaseMapping}.
Import Dashboard DashboardUsers.

Lemma includes_nil (s : list N) : includes s [] = true.
Proof. destruct s; simpl; by rewrite ?startsWith_nil. Qed.

Lemma filter_true {A} (f : A -> bool) (l : list A) :
  (forall x, f x = true) -> List.filter f l = l.
Proof.
  intros Hf. induction l as [|a l IH]; simpl; [done|]. by rewrite Hf, IH.
Qed.

Lemma filter_same {A} (f g : A -> bool) (l : list A) :
  (forall x, f x = g x) -> List.filter f l = List.filter g l.
Proof.
  intros Hfg. induction l as [|a l IH]; simpl; [done|]. by rewrite Hfg, IH.
Qed.

(** X3: with an empty search box (and an engine whose [toLowerCase]
    leaves the empty text empty) no user is filtered out, and the order
    tabs hold every stored order of their status. *)
Theorem empty_search_shows_everything (st : State) :
  toLowerCase [] = [] ->
  searchQuery st = [] ->
  filteredPendingUsers st = pendingUsers st
  /\ filteredApprovedUsers st = approvedUsers st
  /\ filteredOrders st
     = List.filter
         (fun o => jsstring_eqb (getOrderStatus o) (str "PENDING"))
         (pendingOrders st)
  /\ filteredRejectedOrders st
     = List.filter
         (fun o => jsstring_eqb (getOrderStatus o) (str "REJECTED"))
         (rejectedOrders st).
Proof.
  intros Hlow Hq.
  unfold filteredPendingUsers, filteredApprovedUsers, filteredOrders,
    filteredRejectedOrders.
  rewrite Hq, Hlow. repeat split.
  - apply filter_true. intros u. unfold user_matches. by rewrite includes_nil.
  - apply filter_true. intros u. unfold user_matches. by rewrite includes_nil.
  - apply filter_same. intros o. unfold order_matches.
    rewrite includes_nil. by destruct (jsstring_eqb _ _).
  - apply filter_same. intros o. unfold order_matches.
    rewrite includes_nil. by destruct (jsstring_eqb _ _).
Qed.

(** X4: approving a user sends PATCH /users/{id}/status with APPROVED at
    once, without any dialog.  When the call resolves, the four lists are
    fetched again; when it rejects, only the toast changes and nothing is
    fetched. *)
Theorem approve_sends_then_refetches (userId : Z) (patch : ApiResult unit)
    (replies : FetchReplies) (st : State) :
  let result := handleApproveUser userId patch replies st in
  (exists rest, result.2 = PatchUserStatus userId APPROVED :: rest)
  /\ (forall q a, Confirm q a ∉ result.2)
  /\ (forall u, patch = Resolved u ->
        exists tr, result.2 = PatchUserStatus userId APPROVED
                              :: map Refetch (fetch_requests ++ tr))
  /\ (forall e, patch = Rejected e ->
        result = (showToast (error_or e (str "Failed to approve user"))
                    error st,
                  [PatchUserStatus userId APPROVED])).
Proof.
  simpl. unfold handleApproveUser. destruct patch as [u|e].
  - pose proof (fetchData_trace replies
                  (showToast (str "User approved successfully!") success st))
      as Htr.
    destruct (fetchData replies _) as [st2 tr]. simpl in *.
    repeat split; try done.
    + by eexists.
    + intros q a [Hin | Hin]%elem_of_cons; [done|].
      apply list_elem_of_fmap in Hin as (e & He & _). done.
    + intros _ _. destruct Htr as [-> | ->];
        [by exists [] | by eexists].
  - repeat split; try done.
    + by eexists.
    + intros q a Hin. apply list_elem_of_singleton in Hin. done.
    + by intros e' [= ->].
Qed.

(** X5: rejecting a user asks first.  When the user declines, the state
    is as it was and nothing is sent; a PATCH in the trace implies a
    confirmed dialog right before it. *)
Theorem reject_user_waits_for_confirmation (userId : Z)
    (confirm : list N -> bool) (patch : ApiResult unit)
    (replies : FetchReplies) (st : State) :
  let result := handleRejectUser userId confirm patch replies st in
  (confirm reject_user_question = false ->
   result = (st, [Confirm reject_user_question false]))
  /\ (forall u s, PatchUserStatus u s ∈ result.2 ->
      confirm reject_user_question = true
      /\ exists rest,
          result.2 = Confirm reject_user_question true
                     :: PatchUserStatus userId REJECTED :: rest).
Proof.
  simpl. unfold handleRejectUser.
  destruct (confirm reject_user_question) eqn:Hc; simpl; split; try done.
  - intros u s _. split; [done|].
    destruct patch as [x|e]; [|by eexists].
    destruct (fetchData replies _) as [st2 tr]. by eexists.
  - intros u s Hin. apply list_elem_of_singleton in Hin. discriminate.
Qed.

End DashboardMore.

Lemma reject_user_waits_for_confirmation_witness :
  DashboardUsers.handleRejectUser (H := Dashboard.ascii_case) 3
    (fun _ => false) (Resolved tt) Dashboard.offline Dashboard.initial
  = (Dashboard.initial,
     [DashboardUsers.Confirm DashboardUsers.reject_user_question false]).
Proof.
  apply (proj1 (reject_user_waits_for_confirmation (H := Dashboard.ascii_case)
                  3 (fun _ => false) (Resolved tt) Dashboard.offline
                  Dashboard.initial)).
  reflexivity.
Defined.

Lemma empty_search_shows_everything_witness :
  DashboardUsers.filteredPendingUsers (H := Dashboard.ascii_case)
    DashboardUsers.busy
  = [DashboardUsers.ann]
  /\ DashboardUsers.filteredApprovedUsers (H := Dashboard.ascii_case)
       DashboardUsers.busy
     = [DashboardUsers.bob]
  /\ Dashboard.filteredOrders (H := Dashboard.ascii_case) DashboardUsers.busy
     = [DashboardUsers.order_row 1 1 "ORD-1" "pending"]
  /\ Dashboard.filteredRejectedOrders (H := Dashboard.ascii_case)
       DashboardUsers.busy
     = [DashboardUsers.order_row 3 1 "ORD-3" " Rejected "].
Proof.
  exact (empty_search_shows_everything (H := Dashboard.ascii_case)
           DashboardUsers.busy eq_refl eq_refl).
Defined.

Lemma approve_sends_then_refetches_witness :
  exists tr,
    (DashboardUsers.handleApproveUser (H := Dashboard.ascii_case) 3
       (Resolved tt) Dashboard.offline Dashboard.initial).2
    = DashboardUsers.PatchUserStatus 3 DashboardUsers.APPROVED
      :: map DashboardUsers.Refetch (Dashboard.fetch_requests ++ tr).
Proof.
  apply (approve_sends_then_refetches (H := Dashboard.ascii_case) 3
           (Resolved tt) Dashboard.offline Dashboard.initial) with tt.
  reflexivity.
Defined.

(** ** Loading the dashboard *)

Section DashboardLoad.

Context `{Dashboard.CaseMapping}.
Import Dashboard DashboardUsers.

Lemma applyPendingOrders_state (l : list Order) (notify : bool) (st : State) :
  let result := applyPendingOrders l notify st in
  pendingOrders result.1 = l
  /\ lastOrderIds result.1 = list_to_set (map id l)
  /\ hasLoadedOrders result.1 = true
  /\ pendingUsers result.1 = pendingUsers st
  /\ approvedUsers result.1 = approvedUsers st
  /\ rejectedOrders result.1 = rejectedOrders st
  /\ pointsAmount result.1 = pointsAmount st
  /\ pointsDescription result.1 = pointsDescription st
  /\ searchQuery result.1 = searchQuery st
  /\ loading result.1 = loading st.
Proof.
  simpl. unfold applyPendingOrders. simpl.
  destruct (hasLoadedOrders st); simpl; [|done].
  destruct notify; simpl; [|done].
  by destruct (0 <? _)%nat.
Qed.

Lemma filter_nil_iff {A} (f : A -> bool) (l : list A) :
  List.filter f l = [] <-> forall x, x ∈ l -> f x = false.
Proof.
  induction l as [|a l IH]; simpl.
  - split; [intros _ x Hx; inversion Hx | done].
  - destruct (f a) eqn:Ha.
    + split; [done|]. intros Hall.
      specialize (Hall a ltac:(left)). congruence.
    + rewrite IH. split.
      * intros Hall x [-> | Hx]%elem_of_cons; auto.
      * intros Hall x Hx. apply Hall. by right.
Qed.

(** X6: the dashboard never raises the new-order notification.
    [fetchData], the only caller of [applyPendingOrders], passes [false]
    for [notify]: whatever the replies, it plays no sound and shows no
    system notification.  When all four requests resolve it sends them and
    does nothing else, leaves the toast alone even when the reply holds
    orders the page had not seen, and records the ids of the reply for the
    next load.  [applyPendingOrders] itself notifies only when it is called
    with [notify = true], after an earlier load, with an order whose id
    that load did not have. *)
Theorem new_orders_arrive_silently (replies : FetchReplies) (st : State) :
  let result := fetchData replies st in
  (PlayNotificationSound ∉ result.2)
  /\ (forall n, ShowSystemNotification n ∉ result.2)
  /\ (forall p a o r,
        replies
        = mkReplies (Resolved p) (Resolved a) (Resolved o) (Resolved r) ->
        result.2 = fetch_requests
        /\ toast result.1 = toast st
        /\ pendingOrders result.1 = default [] (orders o)
        /\ lastOrderIds result.1
           = list_to_set (map id (default [] (orders o)))
        /\ hasLoadedOrders result.1 = true)
  /\ (forall l notify st0,
        (applyPendingOrders l notify st0).2 <> [] ->
        notify = true /\ hasLoadedOrders st0 = true
        /\ exists o, o ∈ l /\ id o ∉ lastOrderIds st0).
Proof.
  simpl. split; [|split; [|split]].
  - intros Hin.
    destruct (fetchData_trace replies st) as [Htr | Htr];
      rewrite Htr in Hin; unfold fetch_requests in Hin; simpl in Hin;
      repeat (apply elem_of_cons in Hin as [Hin | Hin]; [discriminate|]);
      by apply elem_of_nil in Hin.
  - intros n Hin.
    destruct (fetchData_trace replies st) as [Htr | Htr];
      rewrite Htr in Hin; unfold fetch_requests in Hin; simpl in Hin;
      repeat (apply elem_of_cons in Hin as [Hin | Hin]; [discriminate|]);
      by apply elem_of_nil in Hin.
  - intros p a o r ->. unfold fetchData. simpl.
    pose proof (applyPendingOrders_state (default [] (orders o)) false
                  (setUsers (default [] (users p)) (default [] (users a))
                     (setLoading true st))) as Hst.
    pose proof (applyPendingOrders_quiet (default [] (orders o))
                  (setUsers (default [] (users p)) (default [] (users a))
                     (setLoading true st))) as Hquiet.
    assert (Htoast :
      toast (applyPendingOrders (default [] (orders o)) false
               (setUsers (default [] (users p)) (default [] (users a))
                  (setLoading true st))).1 = toast st).
    { unfold applyPendingOrders. simpl. by destruct (hasLoadedOrders st). }
    simpl in Hst.
    destruct (applyPendingOrders _ false _) as [st3 tr]. simpl in *.
    destruct Hst as (Ho & Hids & Hloaded & _).
    rewrite Hquiet. done.
  - intros l notify st0 Hne. unfold applyPendingOrders in Hne. simpl in Hne.
    destruct (hasLoadedOrders st0); simpl in Hne; [|done].
    destruct notify; simpl in Hne; [|done].
    split; [done|]. split; [done|].
    destruct (List.filter _ _) as [|i fresh] eqn:Hf; [done|].
    assert (Hi : i ∈ List.filter
                   (fun i => negb (bool_decide (i ∈ lastOrderIds st0)))
                   (elements (list_to_set (map id l) : gset Z)))
      by (rewrite Hf; left).
    apply list_elem_of_In, filter_In in Hi as [Hi Hnew].
    apply list_elem_of_In, elem_of_elements, elem_of_list_to_set in Hi.
    apply list_elem_of_fmap in Hi as (o & -> & Ho).
    exists o. split; [done|].
    by apply negb_true_iff, bool_decide_eq_false in Hnew.
Qed.

End DashboardLoad.

Section DashboardFetch.

Context `{Dashboard.CaseMapping}.
Import Dashboard DashboardUsers.

Lemma fetchData_keeps_form (replies : FetchReplies) (st : State) :
  let st' := (fetchData replies st).1 in
  loading st' = false
  /\ pointsAmount st' = pointsAmount st
  /\ pointsDescription st' = pointsDescription st
  /\ searchQuery st' = searchQuery st.
Proof.
  simpl. unfold fetchData.
  destruct (pendingRes replies) as [p|], (approvedRes replies) as [a|],
    (ordersRes replies) as [o|], (rejectedRes replies) as [r|];
    simpl; try (repeat split; done).
  pose proof (applyPendingOrders_state (default [] (orders o)) false
                (setUsers (default [] (users p)) (default [] (users a))
                   (setLoading true st))) as Hst.
  simpl in Hst.
  destruct (applyPendingOrders _ false _) as [st3 tr]. simpl in *.
  destruct Hst as (_ & _ & _ & _ & _ & _ & Ha & Hd & Hq & _).
  repeat split; done.
Qed.

(** X7: [fetchData] is all or nothing.  When one of its four requests
    rejects, none of the four lists changes, whatever the other three
    returned, and the error toast is shown; when all resolve, the toast is
    left alone.  In both cases the loading flag ends false and the form and
    search fields are untouched. *)
Theorem fetchData_all_or_nothing (replies : FetchReplies) (st : State) :
  let st' := (fetchData replies st).1 in
  (all_resolved replies = false ->
   pendingUsers st' = pendingUsers st
   /\ approvedUsers st' = approvedUsers st
   /\ pendingOrders st' = pendingOrders st
   /\ rejectedOrders st' = rejectedOrders st
   /\ toast st'
      = Some (mkToast (str "Failed to refresh data. Please reload the page.")
                error))
  /\ (all_resolved replies = true -> toast st' = toast st)
  /\ loading st' = false
  /\ pointsAmount st' = pointsAmount st
  /\ pointsDescription st' = pointsDescription st
  /\ searchQuery st' = searchQuery st.
Proof.
  simpl. unfold fetchData, all_resolved.
  destruct (pendingRes replies) as [p|], (approvedRes replies) as [a|],
    (ordersRes replies) as [o|], (rejectedRes replies) as [r|];
    simpl; try (repeat split; done).
  pose proof (applyPendingOrders_state (default [] (orders o)) false
                (setUsers (default [] (users p)) (default [] (users a))
                   (setLoading true st))) as Hst.
  simpl in Hst.
  assert (Htoast :
    toast (applyPendingOrders (default [] (orders o)) false
             (setUsers (default [] (users p)) (default [] (users a))
                (setLoading true st))).1 = toast st).
  { unfold applyPendingOrders. simpl. by destruct (hasLoadedOrders st). }
  destruct (applyPendingOrders _ false _) as [st3 tr]. simpl in *.
  destruct Hst as (_ & _ & _ & _ & _ & _ & Ha & Hd & Hq & _).
  repeat split; done.
Qed.

(** X8: the form for adding points is emptied only by a successful
    call.  After a failed call the amount and the description are as the
    administrator typed them, so that pressing the button again sends the
    same request. *)
Theorem add_points_form_kept_on_failure (userId : Z)
    (post : ApiResult PointsResponse) (replies : FetchReplies) (st : State) :
  UserDetails.invalid_amount (Some (pointsAmount st)) = false ->
  let result := handleAddPoints userId post replies st in
  (forall r, post = Resolved r ->
     pointsAmount result.1 = [] /\ pointsDescription result.1 = [])
  /\ (forall e, post = Rejected e ->
      pointsAmount result.1 = pointsAmount st
      /\ pointsDescription result.1 = pointsDescription st
      /\ forall post' replies',
          head (handleAddPoints userId post' replies' result.1).2
          = head result.2).
Proof.
  intros Hvalid. simpl. unfold handleAddPoints at 1 2 3 4 5 6.
  unfold UserDetails.invalid_amount in Hvalid. rewrite Hvalid.
  destruct post as [r|e]; split; try done.
  - intros r' _.
    pose proof (fetchData_keeps_form replies
                  (clearPointsForm (showToast (points_added_message r)
                                      success st))) as Hf.
    simpl in Hf. destruct Hf as (_ & Ha & Hd & _).
    destruct (fetchData replies _) as [st3 tr]. simpl in *. by rewrite Ha, Hd.
  - intros e' _. simpl. repeat split.
    intros post' replies'. unfold handleAddPoints. simpl. rewrite Hvalid.
    destruct post' as [r'|e'']; [|done].
    by destruct (fetchData replies' _).
Qed.

End DashboardFetch.

Lemma add_points_form_kept_on_failure_witness :
  let st := Dashboard.mkState [] [] [] [] false (str "25") (str "gift") []
              None ∅ false in
  Dashboard.pointsAmount
    (Dashboard.handleAddPoints (H := Dashboard.ascii_case) 3 (Rejected None)
       Dashboard.offline st).1 = str "25".
Proof.
  apply (add_points_form_kept_on_failure (H := Dashboard.ascii_case) 3
           (Rejected None) Dashboard.offline
           (Dashboard.mkState [] [] [] [] false (str "25") (str "gift") []
              None ∅ false) eq_refl) with None.
  reflexivity.
Defined.

Lemma fetchData_all_or_nothing_witness :
  let st' := (Dashboard.fetchData (H := Dashboard.ascii_case)
                DashboardUsers.one_fails DashboardUsers.busy).1 in
  Dashboard.pendingUsers st' = [DashboardUsers.ann]
  /\ Dashboard.approvedUsers st' = [DashboardUsers.bob]
  /\ Dashboard.pendingOrders st' = Dashboard.pendingOrders DashboardUsers.busy
  /\ Dashboard.rejectedOrders st'
     = Dashboard.rejectedOrders DashboardUsers.busy
  /\ Dashboard.toast st'
     = Some (mkToast (str "Failed to refresh data. Please reload the page.")
               error).
Proof.
  apply (proj1 (fetchData_all_or_nothing (H := Dashboard.ascii_case)
                  DashboardUsers.one_fails DashboardUsers.busy)).
  reflexivity.
Defined.

Lemma new_orders_arrive_silently_witness :
  let result := Dashboard.fetchData (H := Dashboard.ascii_case)
                  DashboardUsers.news DashboardUsers.busy in
  result.2 = Dashboard.fetch_requests
  /\ Dashboard.toast result.1 = None
  /\ Dashboard.pendingOrders result.1
     = [DashboardUsers.order_row 5 1 "ORD-5" "pending";
        DashboardUsers.order_row 1 1 "ORD-1" "pending"]
  /\ Dashboard.lastOrderIds result.1 = list_to_set [5%Z; 1%Z]
  /\ Dashboard.hasLoadedOrders result.1 = true.
Proof.
  apply (proj1 (proj2 (proj2
           (new_orders_arrive_silently (H := Dashboard.ascii_case)
              DashboardUsers.news DashboardUsers.busy)))
           _ _ _ _ eq_refl).
Defined.

(** ** More on the search classifier *)

Lemma trimStart_head (s : list N) :
  match trimStart s with
  | [] => True
  | c :: _ => is_whitespace c = false
  end.
Proof.
  induction s as [|a s IH]; simpl; [done|].
  destruct (is_whitespace a) eqn:Ha; [done | done].
Qed.

Lemma trimStart_fixed (s : list N) :
  match s with [] => True | c :: _ => is_whitespace c = false end ->
  trimStart s = s.
Proof. destruct s as [|c s]; simpl; [done|]. by intros ->. Qed.

Lemma trimStart_idem (s : list N) : trimStart (trimStart s) = trimStart s.
Proof. apply trimStart_fixed, trimStart_head. Qed.

Lemma trimEnd_prefix (s : list N) : trimEnd s `prefix_of` s.
Proof.
  unfold trimEnd. destruct (trimStart_suffix (reverse s)) as [k Hk].
  exists (reverse k).
  apply (f_equal reverse) in Hk.
  by rewrite reverse_involutive, reverse_app in Hk.
Qed.

(** [trim] is idempotent. *)
Lemma trim_idem (s : list N) : trim (trim s) = trim s.
Proof.
  assert (Hhead : match trim s with
                  | [] => True
                  | c :: _ => is_whitespace c = false
                  end).
  { unfold trim. pose proof (trimStart_head s) as Hs.
    destruct (trimEnd_prefix (trimStart s)) as [k Hk].
    destruct (trimEnd (trimStart s)) as [|c t]; [done|].
    rewrite Hk in Hs. done. }
  unfold trim at 1. rewrite (trimStart_fixed _ Hhead).
  unfold trim, trimEnd. by rewrite reverse_involutive, trimStart_idem.
Qed.

Lemma trimStart_app_blank (ws s : list N) :
  forallb is_whitespace ws = true -> trimStart (ws ++ s) = trimStart s.
Proof.
  induction ws as [|c ws IH]; simpl; [done|].
  intros [-> Hws]%andb_true_iff. by apply IH.
Qed.

Lemma trimEnd_app_blank (s ws : list N) :
  forallb is_whitespace ws = true -> trimEnd (s ++ ws) = trimEnd s.
Proof.
  intros Hws. unfold trimEnd. rewrite reverse_app, trimStart_app_blank; [done|].
  apply forallb_elem. intros c Hc.
  apply (proj1 (elem_of_reverse _ _)) in Hc.
  by apply (proj1 (forallb_elem _ _) Hws).
Qed.

Lemma trim_app_blank (ws s ws' : list N) :
  forallb is_whitespace ws = true -> forallb is_whitespace ws' = true ->
  trim (ws ++ s ++ ws') = trim s.
Proof.
  intros Hws Hws'. unfold trim. rewrite (trimStart_app_blank ws _ Hws).
  induction s as [|c s IH]; simpl.
  - rewrite <- (app_nil_r ws'), (trimStart_app_blank ws' [] Hws'). done.
  - destruct (is_whitespace c); [done|].
    apply (trimEnd_app_blank (c :: s) ws' Hws').
Qed.

(** X11: blanks before and after the search text change nothing: the
    request is the one of the text alone, on both pages. *)
Theorem search_ignores_surrounding_blanks (ws s ws' : list N) :
  forallb is_whitespace ws = true -> forallb is_whitespace ws' = true ->
  TransactionsPage.fetchTransactions_params (ws ++ s ++ ws')
  = TransactionsPage.fetchTransactions_params s
  /\ TransactionsPagePolling.fetchTransactions_params (ws ++ s ++ ws')
     = TransactionsPagePolling.fetchTransactions_params s.
Proof.
  intros Hws Hws'.
  unfold TransactionsPage.fetchTransactions_params,
    TransactionsPagePolling.fetchTransactions_params.
  by rewrite (trim_app_blank ws s ws' Hws Hws').
Qed.

Lemma search_ignores_surrounding_blanks_witness :
  TransactionsPage.fetchTransactions_params
    (str "  " ++ str "a@b.com" ++ str " ")
  = TransactionsPage.fetchTransactions_params (str "a@b.com").
Proof.
  apply (search_ignores_surrounding_blanks (str "  ") (str "a@b.com")
           (str " ") eq_refl eq_refl).
Defined.

(** X9: every request carries the limit 500 and at most one filter;
    it carries one exactly when the trimmed search text is not empty.  The
    polling page never sends the email filter. *)
Theorem one_filter_per_request (s : list N) :
  let p := TransactionsPage.fetchTransactions_params s in
  let q := TransactionsPagePolling.fetchTransactions_params s in
  limit p = 500%Z /\ limit q = 500%Z
  /\ ClearSearch.filters_set p = (if truthy (trim s) then 1 else 0)%nat
  /\ ClearSearch.filters_set q = (if truthy (trim s) then 1 else 0)%nat
  /\ email q = None.
Proof.
  simpl. unfold TransactionsPage.fetchTransactions_params,
    TransactionsPagePolling.fetchTransactions_params, is_short_user_id.
  destruct (truthy (trim s)); [|done].
  destruct (includes (trim s) (str "@")),
    (parseInt (trim s)) as [v|]; simpl; try done.
  all: by destruct (_ && _).
Qed.

Lemma digit_value_range (r : Z) (c : N) (d : Z) :
  digit_value r c = Some d -> (0 <= d < r)%Z.
Proof.
  unfold digit_value.
  destruct (if is_digit c then _ else _) as [d0|] eqn:Hv; [|discriminate].
  destruct (Z.ltb_spec d0 r); [|discriminate]. intros [= <-].
  split; [|done]. unfold is_digit in Hv.
  destruct (N.leb_spec 48 c), (N.leb_spec c 57); simpl in Hv;
    try (injection Hv as <-; lia).
  all: destruct (N.leb_spec 97 c), (N.leb_spec c 122); simpl in Hv;
    try (injection Hv as <-; lia).
  all: destruct (N.leb_spec 65 c), (N.leb_spec c 90); simpl in Hv;
    try (injection Hv as <-; lia); discriminate.
Qed.

Lemma parse_digits_bound (r : Z) (s : list N) (a m : Z) :
  (1 < r)%Z -> (0 <= a)%Z ->
  parse_digits r s (Some a) = Some m ->
  (0 <= m < (a + 1) * r ^ Z.of_nat (length s))%Z.
Proof.
  intros Hr. revert a. induction s as [|c s IH]; intros a Ha; simpl length.
  - simpl. intros [= <-]. lia.
  - simpl parse_digits. rewrite Nat2Z.inj_succ, Z.pow_succ_r by lia.
    assert (Hpow : (0 < r ^ Z.of_nat (length s))%Z) by (apply Z.pow_pos_nonneg; lia).
    destruct (digit_value r c) as [d|] eqn:Hd.
    + apply digit_value_range in Hd. simpl. intros Hm.
      apply IH in Hm; [|nia]. nia.
    + intros [= <-]. nia.
Qed.

Lemma parse_digits_none_bound (r : Z) (s : list N) (m : Z) :
  (1 < r)%Z -> parse_digits r s None = Some m ->
  (0 <= m < r ^ Z.of_nat (length s))%Z.
Proof.
  intros Hr. destruct s as [|c s]; [discriminate|]. simpl parse_digits.
  destruct (digit_value r c) as [d|] eqn:Hd; [|discriminate].
  apply digit_value_range in Hd. simpl default. intros Hm.
  apply parse_digits_bound in Hm; [|done|lia].
  simpl length. rewrite Nat2Z.inj_succ, Z.pow_succ_r by lia.
  assert (Hpow : (0 < r ^ Z.of_nat (length s))%Z) by (apply Z.pow_pos_nonneg; lia).
  nia.
Qed.

Lemma trimStart_length (s : list N) : (length (trimStart s) <= length s)%nat.
Proof.
  destruct (trimStart_suffix s) as [k Hk]. rewrite Hk at 2.
  rewrite length_app. lia.
Qed.

(** A text of at most 3 characters is read by [parseInt] as a number
    below 1000. *)
Lemma parseInt_short (q : list N) (v : Z) :
  (length q <= 3)%nat -> parseInt q = Some v -> (v <= 999)%Z.
Proof.
  intros Hlen. unfold parseInt.
  pose proof (trimStart_length q) as Hl0.
  destruct (read_sign (trimStart q)) as [sign s1] eqn:Hsign.
  assert (Hs1 : (length s1 <= 3)%nat /\ (sign = 1 \/ sign = -1)%Z).
  { unfold read_sign in Hsign. destruct (trimStart q) as [|c t]; simpl in *.
    - injection Hsign as <- <-. simpl. lia.
    - destruct (c =? 45); [|destruct (c =? 43)];
        injection Hsign as <- <-; simpl; lia. }
  destruct Hs1 as [Hl1 Hsg].
  destruct (read_radix s1) as [radix s2] eqn:Hradix.
  assert (Hs2 : (radix = 10%Z /\ (length s2 <= 3)%nat)
                \/ (radix = 16%Z /\ (length s2 <= 1)%nat)).
  { unfold read_radix in Hradix.
    destruct s1 as [|c0 [|x t]]; simpl in *;
      try (injection Hradix as <- <-; simpl; left; split; [done | lia]).
    destruct ((c0 =? 48) && ((x =? 120) || (x =? 88)));
      injection Hradix as <- <-; simpl; [right | left]; split; done || lia. }
  destruct (parse_digits radix s2 None) as [m|] eqn:Hm; [|discriminate].
  intros [= <-].
  destruct Hs2 as [[-> Hl2] | [-> Hl2]].
  - apply parse_digits_none_bound in Hm; [|lia].
    assert ((10 ^ Z.of_nat (length s2) <= 10 ^ 3)%Z)
      by (apply Z.pow_le_mono_r; lia).
    lia.
  - apply parse_digits_none_bound in Hm; [|lia].
    assert ((16 ^ Z.of_nat (length s2) <= 16 ^ 1)%Z)
      by (apply Z.pow_le_mono_r; lia).
    lia.
Qed.

(** X10: a userId filter always lies between 1 and 999: the test
    [numValue < 10000] never decides, and a number of four digits is never
    sent as userId. *)
Theorem userId_between_1_and_999 (s : list N) (v : Z) :
  userId (TransactionsPage.fetchTransactions_params s) = Some v
  \/ userId (TransactionsPagePolling.fetchTransactions_params s) = Some v ->
  (1 <= v <= 999)%Z.
Proof.
  unfold TransactionsPage.fetchTransactions_params,
    TransactionsPagePolling.fetchTransactions_params.
  destruct (truthy (trim s)); [|by intros [?|?]].
  assert (Hshort : is_short_user_id (trim s) = true ->
                   parseInt (trim s) = Some v -> (1 <= v <= 999)%Z).
  { unfold is_short_user_id. intros Hid Hv. rewrite Hv in Hid. simpl in Hid.
    apply andb_true_iff in Hid as [[Hlen Hpos]%andb_true_iff _].
    apply Nat.leb_le in Hlen. apply Z.ltb_lt in Hpos.
    pose proof (parseInt_short (trim s) v Hlen Hv). lia. }
  destruct (is_short_user_id (trim s)) eqn:Hid.
  - destruct (includes (trim s) (str "@")); simpl;
      intros [Hv | Hv]; try done; by apply Hshort.
  - destruct (includes (trim s) (str "@")); simpl; by intros [?|?].
Qed.

Lemma userId_between_1_and_999_witness :
  userId (TransactionsPage.fetchTransactions_params (str "42")) = Some 42%Z
  /\ (1 <= 42 <= 999)%Z.
Proof.
  split; [reflexivity|].
  apply (userId_between_1_and_999 (str "42") 42). left. reflexivity.
Defined.



(** ** More on the rows of the transactions table *)

Section RowsMore.

Import TransactionRows.
Context {number : Type} `{JSNumber number}.

Lemma previousTotalReward_same_user (later : list (Transaction number))
    (t : Transaction number) :
  previousTotalReward later t
  = previousTotalReward
      (List.filter (fun p => (user_id p =? user_id t)%Z) later) t.
Proof.
  induction later as [|p later IH]; simpl; [done|].
  destruct (Z.eqb_spec (user_id p) (user_id t)) as [Hu|Hu]; simpl; [|done].
  destruct (Z.eqb_spec (user_id p) (user_id t)); [|done]. simpl.
  destruct (is_reward_row p); [|done]. by destruct (reward_text p).
Qed.

Lemma drop_after {A} (pre later : list A) (t : A) :
  drop (S (length pre)) (pre ++ t :: later) = later.
Proof. induction pre as [|a pre IH]; simpl; [by rewrite drop_0 | done]. Qed.

(** X13: the amount shown for a row depends only on the row itself and
    on the rows of the same user further down the list: rows above it and
    rows of other users can be added or removed without changing it. *)
Theorem displayAmount_local (pre pre' later later' : list (Transaction number))
    (t : Transaction number) :
  List.filter (fun p => (user_id p =? user_id t)%Z) later
  = List.filter (fun p => (user_id p =? user_id t)%Z) later' ->
  displayAmount (pre ++ t :: later) (length pre) t
  = displayAmount (pre' ++ t :: later') (length pre') t.
Proof.
  intros Hsame. unfold displayAmount.
  rewrite !drop_after.
  by rewrite (previousTotalReward_same_user later),
    (previousTotalReward_same_user later'), Hsame.
Qed.

End RowsMore.

Section RewardExpression.

Import TransactionRows.

Lemma figure_not_whitespace (c : N) :
  is_figure_char c = true -> is_whitespace c = false.
Proof.
  unfold is_figure_char. intros [Hd | Hdot]%orb_true_iff.
  - by apply digit_not_whitespace.
  - apply N.eqb_eq in Hdot. by subst c.
Qed.

Lemma take_figure_app (f rest : list N) :
  forallb is_figure_char f = true ->
  match rest with [] => True | c :: _ => is_figure_char c = false end ->
  take_figure (f ++ rest) = f.
Proof.
  intros Hf Hrest. induction f as [|c f IH]; simpl.
  - destruct rest as [|c rest]; [done|]. simpl. by rewrite Hrest.
  - simpl in Hf. apply andb_true_iff in Hf as [-> Hf]. by rewrite IH.
Qed.

Lemma match_here_figure (ws f rest : list N) :
  forallb is_whitespace ws = true ->
  f <> [] -> forallb is_figure_char f = true ->
  match rest with [] => True | c :: _ => is_figure_char c = false end ->
  match_here (str "Reward:" ++ ws ++ f ++ rest) = Some f.
Proof.
  intros Hws Hne Hf Hrest. unfold match_here.
  change (str "Reward:") with [82; 101; 119; 97; 114; 100; 58].
  change ([82; 101; 119; 97; 114; 100; 58] ++ ws ++ f ++ rest)
    with (82 :: 101 :: 119 :: 97 :: 114 :: 100 :: 58 :: ws ++ f ++ rest).
  simpl startsWith. rewrite startsWith_nil. simpl drop. rewrite drop_0.
  rewrite (trimStart_app_blank ws _ Hws).
  destruct f as [|c f]; [done|].
  assert (Hc : is_whitespace c = false).
  { apply figure_not_whitespace. simpl in Hf.
    by apply andb_true_iff in Hf as [? _]. }
  simpl trimStart. rewrite Hc.
  change (c :: f ++ rest) with ((c :: f) ++ rest).
  rewrite (take_figure_app (c :: f) rest Hf Hrest). done.
Qed.

Lemma startsWith_cons (c a : N) (s sub : list N) :
  startsWith (c :: s) (a :: sub) = (a =? c) && startsWith s sub.
Proof. reflexivity. Qed.

Lemma match_reward_here (s f : list N) :
  match_here s = Some f -> match_reward s = Some f.
Proof.
  intros Hhere. destruct s as [|c s].
  - unfold match_here in Hhere. simpl in Hhere. discriminate.
  - simpl. by rewrite Hhere.
Qed.

Lemma match_reward_skip (c : N) (s : list N) :
  match_here (c :: s) = None -> match_reward (c :: s) = match_reward s.
Proof. intros Hhere. simpl. by rewrite Hhere. Qed.

(** X14: the figure written after [Reward:] is the figure read.  In a
    description that has no capital R before the word [Reward:], the
    expression captures the run of digits and dots that follows it, blanks
    in between skipped, up to the first other character. *)
Theorem match_reward_reads_figure (pre ws f rest : list N) :
  82 ∉ pre ->
  forallb is_whitespace ws = true ->
  f <> [] -> forallb is_figure_char f = true ->
  match rest with [] => True | c :: _ => is_figure_char c = false end ->
  match_reward (pre ++ str "Reward:" ++ ws ++ f ++ rest) = Some f.
Proof.
  intros Hpre Hws Hne Hf Hrest. induction pre as [|c pre IH].
  - apply match_reward_here, (match_here_figure ws f rest Hws Hne Hf Hrest).
  - change ((c :: pre) ++ str "Reward:" ++ ws ++ f ++ rest)
      with (c :: pre ++ str "Reward:" ++ ws ++ f ++ rest).
    assert (Hc : c <> 82) by (intros ->; apply Hpre; left).
    assert (Hhere : match_here (c :: pre ++ str "Reward:" ++ ws ++ f ++ rest)
                    = None).
    { unfold match_here.
      change (str "Reward:") with [82; 101; 119; 97; 114; 100; 58].
      rewrite startsWith_cons.
      destruct (N.eqb_spec 82 c); [congruence | done]. }
    rewrite (match_reward_skip _ _ Hhere).
    apply IH. intros Hin. apply Hpre. by right.
Qed.

Lemma match_reward_reads_figure_witness :
  match_reward (str "Weekly Sale " ++ str "Reward:" ++ str " " ++ str "12.5"
                ++ str " (sales 3)")
  = Some (str "12.5").
Proof.
  apply (match_reward_reads_figure (str "Weekly Sale ") (str " ") (str "12.5")
           (str " (sales 3)")).
  - vm_compute. intros Hin.
    repeat (apply elem_of_cons in Hin as [Hin | Hin]; [discriminate|]).
    by apply elem_of_nil in Hin.
  - reflexivity.
  - discriminate.
  - reflexivity.
  - reflexivity.
Defined.

Lemma take_figure_chars (s : list N) :
  forallb is_figure_char (take_figure s) = true.
Proof.
  induction s as [|c s IH]; simpl; [done|].
  destruct (is_figure_char c) eqn:Hc; simpl; [by rewrite Hc | done].
Qed.

(** X15: the expression captures nothing but a non-empty run of digits
    and dots, and only from a text that contains [Reward:]. *)
Theorem match_reward_sound (d f : list N) :
  match_reward d = Some f ->
  f <> [] /\ forallb is_figure_char f = true
  /\ includes d (str "Reward:") = true.
Proof.
  induction d as [|c d IH]; simpl.
  - unfold match_here. simpl. discriminate.
  - destruct (match_here (c :: d)) as [g|] eqn:Hhere.
    + intros [= ->]. unfold match_here in Hhere.
      destruct (startsWith (c :: d) (str "Reward:")) eqn:Hstart;
        [|discriminate].
      destruct (take_figure _) as [|x g] eqn:Hfig; [discriminate|].
      injection Hhere as <-. rewrite <- Hfig.
      split; [by rewrite Hfig|]. split; [apply take_figure_chars|].
      simpl in Hstart. by rewrite Hstart.
    + intros Hrec. destruct (IH Hrec) as (Hne & Hf & Hinc).
      repeat split; try done. rewrite Hinc. apply orb_true_r.
Qed.

Lemma match_reward_sound_witness :
  str "12.5" <> [] /\ forallb is_figure_char (str "12.5") = true
  /\ includes (str "Weekly Sale Reward: 12.5") (str "Reward:") = true.
Proof.
  apply (match_reward_sound (str "Weekly Sale Reward: 12.5") (str "12.5")).
  reflexivity.
Defined.

End RewardExpression.

Lemma displayAmount_local_witness :
  TransactionRows.displayAmount (H := TransactionRows.exact)
    ([] ++ TransactionRows.week_first
        :: [TransactionRows.row 2 "ADDED" "Weekly Sale Reward: 7.25"
              "2024-03-15T18:00:00Z" 7; TransactionRows.week_last])
    (length (@nil (TransactionRows.Transaction TransactionRows.rat)))
    TransactionRows.week_first
  = TransactionRows.displayAmount (H := TransactionRows.exact)
      ([TransactionRows.zero_row] ++ TransactionRows.week_first
          :: [TransactionRows.week_last])
      (length [TransactionRows.zero_row]) TransactionRows.week_first.
Proof.
  apply (displayAmount_local (H := TransactionRows.exact)).
  reflexivity.
Defined.



(** ** The user details page *)

Section UserDetailsMore.

Import UserDetailsLoad.

(** X17: on the user details page approving and rejecting both ask
    first.  When the user declines, the state is as it was and nothing is
    sent; any request in the trace implies a confirmed dialog, and the first
    request is the PATCH with the chosen status. *)
Theorem status_change_waits_for_confirmation {T : Type} (userId : list N)
    (newStatus : DashboardUsers.UserStatusArg) (confirm : list N -> bool)
    (patch : ApiResult unit) (reply : ApiResult (option UserDetails.UserRow))
    (rows : ApiResult (option (list T))) (st : State T) :
  let result :=
    handleStatusChange userId newStatus confirm patch reply rows st in
  (confirm (status_question newStatus) = false ->
   result = (st, [Confirm (status_question newStatus) false]))
  /\ (existsb is_request result.2 = true ->
      confirm (status_question newStatus) = true
      /\ exists rest,
          result.2 = Confirm (status_question newStatus) true
                     :: PatchStatus userId newStatus :: rest).
Proof.
  simpl. unfold handleStatusChange.
  destruct (confirm (status_question newStatus)) eqn:Hc; simpl; split;
    try done.
  intros _. split; [done|].
  destruct patch as [u|e]; [|by eexists].
  destruct (fetchUserDetails userId reply rows _) as [st2 tr]. by eexists.
Qed.

Lemma status_change_waits_for_confirmation_witness :
  handleStatusChange (T := unit) (str "7") DashboardUsers.APPROVED
    (fun _ => false) (Resolved tt) (Resolved None) (Resolved None) empty
  = (empty,
     [Confirm (status_question DashboardUsers.APPROVED) false]).
Proof.
  apply (proj1 (status_change_waits_for_confirmation (T := unit) (str "7")
                  DashboardUsers.APPROVED (fun _ => false) (Resolved tt)
                  (Resolved None) (Resolved None) empty)).
  reflexivity.
Defined.

(** X19: the rows of a user are requested only after the details call
    resolved, and only for a user id that is not empty.  A failed details
    call shows the error toast and leaves user and rows as they were; a
    failed rows call is silent: the toast and the rows stay. *)
Theorem details_before_rows {T : Type} (userId : list N)
    (reply : ApiResult (option UserDetails.UserRow))
    (rows : ApiResult (option (list T))) (st : State T) :
  let result := fetchUserDetails userId reply rows st in
  loading result.1 = false
  /\ (forall e, reply = Rejected e ->
        result.2 = [GetUser userId;
                    ConsoleError (str "Failed to fetch user details:")]
        /\ user result.1 = user st
        /\ transactions result.1 = transactions st
        /\ toast result.1
           = Some (mkToast (error_or e (str "Failed to load user details"))
                     error))
  /\ (forall u, reply = Resolved u ->
        user result.1 = u
        /\ toast result.1 = toast st
        /\ (truthy userId = false -> result.2 = [GetUser userId])
        /\ (truthy userId = true ->
            loadingTransactions result.1 = false
            /\ exists rest,
                result.2 = GetUser userId
                           :: GetUserTransactions userId 50 :: rest)
        /\ (forall e, rows = Rejected e ->
              transactions result.1 = transactions st)).
Proof.
  simpl. unfold fetchUserDetails, fetchUserTransactions.
  destruct reply as [u|e]; simpl.
  - split; [by destruct (truthy userId), rows|].
    split; [by intros e [=]|].
    intros u0 [= <-].
    destruct (truthy userId) eqn:Ht; simpl; [destruct rows as [listed|e']|];
      simpl; repeat split; try done.
    all: by eexists.
  - split; [done|]. split; [|by intros u [=]].
    by intros e0 [= <-].
Qed.

Lemma details_before_rows_witness :
  (fetchUserDetails (T := unit) (str "7") (Rejected None) (Resolved None)
     empty).2
  = [GetUser (str "7"); ConsoleError (str "Failed to fetch user details:")].
Proof.
  apply (details_before_rows (T := unit) (str "7") (Rejected None)
           (Resolved None) empty) with None.
  reflexivity.
Defined.

End UserDetailsMore.

(** X18: after a successful call the page always holds a receipt.  It
    is the one the server sent, if it sent one; otherwise it is built on the
    page, with the amount and the description of the request that was
    posted, the status SUCCESS and the time of the click. *)
Theorem receipt_matches_request (userId : list N)
    (prompt : list N -> option (list N)) (now : list N) (r : PointsResponse)
    (st : UserDetails.State) :
  UserDetails.invalid_amount (prompt UserDetails.amount_question) = false ->
  let result :=
    UserDetails.handleAddPoints userId prompt now (Resolved r) st in
  exists body shown,
    UserDetails.PostPoints userId body ∈ result.2
    /\ UserDetails.addPointsReceipt result.1 = Some shown
    /\ (forall sent, receipt r = Some sent -> shown = sent)
    /\ (receipt r = None ->
        receipt_amount shown = amount body
        /\ receipt_description shown = Some (description body)
        /\ receipt_status shown = str "SUCCESS"
        /\ receipt_created_at shown = now).
Proof.
  intros Hvalid. simpl. unfold UserDetails.handleAddPoints. rewrite Hvalid.
  simpl. eexists _, _. split; [|split; [reflexivity|]].
  - do 2 apply list_elem_of_further. apply list_elem_of_here.
  - destruct (receipt r) as [sent|]; split; try done.
    by intros ? [= <-].
Qed.

Lemma receipt_matches_request_witness :
  exists body shown,
    UserDetails.PostPoints (str "7") body
    ∈ (UserDetails.handleAddPoints (str "7") (UserDetailsLoad.types "25")
         (str "2024-03-18T09:30:00Z")
         (Resolved (mkPointsResponse (str "112") None))
         (UserDetails.mkState None None None)).2
    /\ UserDetails.addPointsReceipt
         (UserDetails.handleAddPoints (str "7") (UserDetailsLoad.types "25")
            (str "2024-03-18T09:30:00Z")
            (Resolved (mkPointsResponse (str "112") None))
            (UserDetails.mkState None None None)).1 = Some shown
    /\ (forall sent,
          receipt (mkPointsResponse (str "112") None) = Some sent ->
          shown = sent)
    /\ (receipt (mkPointsResponse (str "112") None) = None ->
        receipt_amount shown = amount body
        /\ receipt_description shown = Some (description body)
        /\ receipt_status shown = str "SUCCESS"
        /\ receipt_created_at shown = str "2024-03-18T09:30:00Z").
Proof.
  apply (receipt_matches_request (str "7") (UserDetailsLoad.types "25")
           (str "2024-03-18T09:30:00Z") (mkPointsResponse (str "112") None)
           (UserDetails.mkState None None None)).
  reflexivity.
Defined.

(** ** The session *)

Section Session.

Import Auth.

Lemma getToken_setToken (t : list N) (b : Browser) :
  getToken (setToken t b) = Some t.
Proof. unfold getToken, setToken. simpl. by rewrite lookup_insert_eq. Qed.

Lemma getToken_removeToken (b : Browser) : getToken (removeToken b) = None.
Proof. unfold getToken, removeToken. simpl. by rewrite lookup_delete_eq. Qed.



(** X21: after a logout the browser holds no token and is on the login
    route, and a transactions page that mounts sends no request.  In
    general the guard lets the page send its request exactly when the
    browser is authenticated, and otherwise sends it to the login route with
    its state untouched. *)
Theorem logout_closes_the_gate {T : Type}
    (reply : ApiResult (option (list T))) (b : Browser)
    (st : TransactionsPage.State T) :
  (isAuthenticated (handleLogout b) = false
   /\ location (handleLogout b) = str "/login"
   /\ mountTransactions reply (handleLogout b) st = (handleLogout b, st, []))
  /\ (isAuthenticated b = false ->
      mountTransactions reply b st = (push (str "/login") b, st, []))
  /\ (isAuthenticated b = true ->
      mountTransactions reply b st
      = (b, (TransactionsPage.fetchTransactions reply st).1,
         (TransactionsPage.fetchTransactions reply st).2)
      /\ (mountTransactions reply b st).2 <> []).
Proof.
  assert (Hout : isAuthenticated (handleLogout b) = false).
  { unfold isAuthenticated, handleLogout, push, getToken, removeToken. simpl.
    by rewrite lookup_delete_eq. }
  split; [|split].
  - unfold mountTransactions. rewrite Hout. by simpl.
  - intros Hno. unfold mountTransactions. by rewrite Hno.
  - intros Hyes. unfold mountTransactions. rewrite Hyes.
    simpl. destruct reply; simpl; by split.
Qed.

End Session.

Lemma logout_closes_the_gate_witness :
  Auth.mountTransactions (T := unit) (Resolved None) Auth.fresh
    (TransactionsPage.searching [])
  = (Auth.push (str "/login") Auth.fresh, TransactionsPage.searching [], []).
Proof.
  apply (logout_closes_the_gate (T := unit) (Resolved None) Auth.fresh
           (TransactionsPage.searching [])).
  reflexivity.
Defined.

(** ** The sidebar *)

Section SidebarMenu.

Import Sidebar.

(** X22: a menu item is drawn as active only on the route /dashboard, so
    on /transactions, /reports and every other page no item is active.  On
    /dashboard without a query string only the Dashboard item is active, and
    with the query string of one of the three tab items only that item. *)
Theorem active_only_on_dashboard :
  (forall pathname search href,
      isActive pathname search href = true -> pathname = str "/dashboard")
  /\ (forall pathname search,
        pathname <> str "/dashboard" -> activeItems pathname search = [])
  /\ activeItems (str "/dashboard") [] = [str "/dashboard"]
  /\ activeItems (str "/dashboard") (str "?tab=pending")
     = [str "/dashboard?tab=pending"]
  /\ activeItems (str "/dashboard") (str "?tab=users")
     = [str "/dashboard?tab=users"]
  /\ activeItems (str "/dashboard") (str "?tab=orders")
     = [str "/dashboard?tab=orders"].
Proof.
  assert (Hdash : forall pathname search href,
             isActive pathname search href = true ->
             pathname = str "/dashboard").
  { intros pathname search href. unfold isActive.
    destruct (jsstring_eqb href _);
      intros [Hp _]%andb_true_iff; by apply bool_decide_eq_true in Hp. }
  split; [exact Hdash|]. split; [|repeat split; reflexivity].
  intros pathname search Hne. unfold activeItems.
  apply filter_nil_iff. intros href _.
  destruct (isActive pathname search href) eqn:Ha; [|done].
  by apply Hdash in Ha.
Qed.

Lemma active_only_on_dashboard_witness :
  activeItems (str "/transactions") [] = [].
Proof.
  apply (proj1 (proj2 active_only_on_dashboard) (str "/transactions") []).
  discriminate.
Defined.

End SidebarMenu.

(** ** The theme toggle *)

Section Theme.

Import ThemeToggle.

Lemma getPreferredTheme_stored (t : Theme) (env : Env) :
  localStorage env !! STORAGE_KEY = Some (theme_text t) ->
  getPreferredTheme env = t.
Proof. intros Hs. unfold getPreferredTheme. rewrite Hs. by destruct t. Qed.

(** X23: after mounting and any number of clicks the document carries
    the class [dark] exactly when the theme is dark, and the theme is the
    preferred one after an even number of clicks and the other one after an
    odd number.  Once clicked, the theme is in local storage, so that a
    reload shows it again whatever the system prefers. *)
Theorem theme_survives_reload (n : nat) (env : Env) :
  let '(theme, env') := clicks n env in
  darkClass env' = is_dark theme
  /\ theme = (if Nat.even n then getPreferredTheme env
              else match getPreferredTheme env with
                   | dark => light
                   | light => dark
                   end)
  /\ prefersDark env' = prefersDark env
  /\ ((0 < n)%nat ->
      forall system,
        mount (mkEnv (localStorage env') system false)
        = (theme, mkEnv (localStorage env') system (is_dark theme))).
Proof.
  induction n as [|n IH].
  - simpl. repeat split; try done. lia.
  - simpl clicks. destruct (clicks n env) as [theme env'].
    destruct IH as (Hclass & Htheme & Hsys & _).
    unfold toggleTheme. rewrite Nat.even_succ, <- Nat.negb_even.
    repeat split.
    + rewrite Htheme. by destruct (Nat.even n), (getPreferredTheme env).
    + done.
    + intros _ system. unfold mount.
      rewrite (getPreferredTheme_stored
                 (match theme with dark => light | light => dark end)); [done|].
      simpl. apply lookup_insert_eq.
Qed.

Lemma theme_survives_reload_witness :
  mount (mkEnv (localStorage (clicks 1 (mkEnv ∅ true false)).2) true false)
  = (light, mkEnv (localStorage (clicks 1 (mkEnv ∅ true false)).2) true false).
Proof.
  pose proof (theme_survives_reload 1 (mkEnv ∅ true false)) as Hw.
  destruct (clicks 1 (mkEnv ∅ true false)) as [theme env'] eqn:Hc.
  destruct Hw as (_ & Htheme & _ & Hreload).
  simpl in Htheme. subst theme. simpl.
  apply (Hreload ltac:(lia) true).
Defined.

End Theme.

(** ** The announcements page *)

Section AnnouncementsPage.

Import Announcements.

Lemma fetchAnnouncements_keeps
    (reply : ApiResult (option (list Announcement))) (st : State) :
  let result := fetchAnnouncements reply st in
  showModal result.1 = showModal st
  /\ editingId result.1 = editingId st
  /\ formData result.1 = formData st
  /\ loading result.1 = false
  /\ exists rest, result.2 = GetAnnouncements :: rest.
Proof. destruct reply; simpl; repeat split; by eexists. Qed.

(** X24: saving an announcement closes the form only when the call
    resolved: then the form is no longer editing and the list is fetched
    again.  When the call rejects, the form stays open with its content and
    its target, the list is not fetched, and saving again sends the same
    request. *)
Theorem save_closes_form_on_success (save : ApiResult unit)
    (reply : ApiResult (option (list Announcement))) (st : State) :
  let result := handleSubmit save reply st in
  (forall u, save = Resolved u ->
     showModal result.1 = false /\ editingId result.1 = None
     /\ formData result.1 = formData st
     /\ exists request rest, result.2 = request :: GetAnnouncements :: rest)
  /\ (forall e, save = Rejected e ->
      showModal result.1 = showModal st
      /\ editingId result.1 = editingId st
      /\ formData result.1 = formData st
      /\ announcements result.1 = announcements st
      /\ (GetAnnouncements ∉ result.2)
      /\ forall save' reply',
          head (handleSubmit save' reply' result.1).2 = head result.2).
Proof.
  simpl. unfold handleSubmit. destruct save as [u|e]; split; try done.
  - intros _ _.
    pose proof (fetchAnnouncements_keeps reply
                  (closeModal
                     (showToast
                        (match editing st with
                         | Some _ => str "Announcement updated successfully"
                         | None => str "Announcement created successfully"
                         end) success st))) as Hk.
    simpl in Hk. destruct Hk as (Hm & Hi & Hf & _ & rest & Htr).
    destruct (fetchAnnouncements reply _) as [st2 tr]. simpl in *.
    subst tr. repeat split; try done. by eexists _, _.
  - intros e' _. simpl. repeat split.
    + intros Hin. apply list_elem_of_singleton in Hin.
      by destruct (editing st).
    + intros save' reply'. unfold editing. simpl.
      destruct save' as [u|e'']; [|done].
      by destruct (fetchAnnouncements reply' _).
Qed.

Lemma save_closes_form_on_success_witness :
  showModal (handleSubmit (Resolved tt) (Resolved None)
               (openEditModal notice initial)).1 = false.
Proof.
  apply (save_closes_form_on_success (Resolved tt) (Resolved None)
           (openEditModal notice initial)) with tt.
  reflexivity.
Defined.

(** X25: opening the edit form of an announcement and saving it
    sends PUT /announcements/{id} with the announcement's own title,
    message and type and with its active flag as a boolean, when the id is
    not 0.  An announcement with the id 0 is sent as a new one, by POST,
    because the form tests the id for truthiness. *)
Theorem edit_then_save (a : Announcement) (save : ApiResult unit)
    (reply : ApiResult (option (list Announcement))) (st : State) :
  let body :=
    mkForm (title a) (message a) (type a) (flag_truthy (is_active a)) in
  let sent := head (handleSubmit save reply (openEditModal a st)).2 in
  (id a <> 0%Z -> sent = Some (PutAnnouncement (id a) body))
  /\ (id a = 0%Z -> sent = Some (PostAnnouncement body)).
Proof.
  simpl. unfold handleSubmit, editing. simpl.
  destruct (Z.eqb_spec (id a) 0) as [Hz|Hz]; split; try done.
  - intros _. destruct save as [u|e]; [|done].
    by destruct (fetchAnnouncements reply _).
  - intros _. destruct save as [u|e]; [|done].
    by destruct (fetchAnnouncements reply _).
Qed.

Lemma edit_then_save_witness :
  head (handleSubmit (Resolved tt) (Resolved None)
          (openEditModal notice initial)).2
  = Some (PutAnnouncement 4
            (mkForm (str "Maintenance") (str "Sunday 02:00") warning_type
               true)).
Proof.
  apply (proj1 (edit_then_save notice (Resolved tt) (Resolved None) initial)).
  discriminate.
Defined.

(** X26: deleting an announcement asks first: declined, the state is as
    it was and nothing is sent; a DELETE in the trace implies a confirmed
    dialog right before it, and it names the announcement that was clicked.
    Hiding or activating never asks, and sends the opposite of the flag the
    announcement has. *)
Theorem delete_waits_toggle_does_not (target : Z) (a : Announcement)
    (confirm : list N -> bool) (call : ApiResult unit)
    (reply : ApiResult (option (list Announcement))) (st : State) :
  let deleted := handleDelete target confirm call reply st in
  let toggled := toggleActive a call reply st in
  (confirm delete_question = false ->
   deleted = (st, [Confirm delete_question false]))
  /\ (forall i, DeleteAnnouncement i ∈ deleted.2 ->
      confirm delete_question = true
      /\ exists rest,
          deleted.2 = Confirm delete_question true
                      :: DeleteAnnouncement target :: rest)
  /\ (exists rest,
        toggled.2
        = PutActive (id a) (negb (flag_truthy (is_active a))) :: rest).
Proof.
  simpl. unfold handleDelete, toggleActive. split; [|split].
  - by intros ->.
  - intros i. destruct (confirm delete_question); simpl.
    + intros _. split; [done|]. destruct call as [u|e]; [|by eexists].
      destruct (fetchAnnouncements reply _). by eexists.
    + intros Hin. apply list_elem_of_singleton in Hin. discriminate.
  - destruct call as [u|e]; [|by eexists].
    destruct (fetchAnnouncements reply _). by eexists.
Qed.

Lemma delete_waits_toggle_does_not_witness :
  handleDelete 4 (fun _ => false) (Resolved tt) (Resolved None) initial
  = (initial, [Confirm delete_question false]).
Proof.
  apply (proj1 (delete_waits_toggle_does_not 4 notice (fun _ => false)
                  (Resolved tt) (Resolved None) initial)).
  reflexivity.
Defined.

End AnnouncementsPage.

(** ** The user filter of the weekly report *)

Section ReportFilter.

Context `{Dashboard.CaseMapping}.
Import Reports.

Lemma startsWith_refl (s : list N) : startsWith s s = true.
Proof.
  induction s as [|c s IH]; [done|].
  rewrite startsWith_cons, IH, N.eqb_refl. done.
Qed.

Lemma includes_refl (s : list N) : includes s s = true.
Proof. destruct s; simpl; [done|]. by rewrite N.eqb_refl, startsWith_refl. Qed.

Lemma trim_blank (s : list N) :
  forallb is_whitespace s = true -> trim s = [].
Proof.
  intros Hs. unfold trim.
  rewrite <- (app_nil_r s), (trimStart_app_blank s [] Hs). done.
Qed.

(** X27: in the weekly report a search text of blanks only filters
    nothing out, and a search for the number of a user (as the lower-cased,
    trimmed text) always keeps that user. *)
Theorem report_search (userSearch : list N) (l : list UserBreakdown) :
  (forallb is_whitespace userSearch = true -> filterUsers userSearch l = l)
  /\ (forall u,
        u ∈ l ->
        truthy (trim userSearch) = true ->
        trim (Dashboard.toLowerCase userSearch) = Z_text (user_id u) ->
        u ∈ filterUsers userSearch l).
Proof.
  split.
  - intros Hblank. unfold filterUsers. by rewrite (trim_blank _ Hblank).
  - intros u Hu Hne Hs. unfold filterUsers. rewrite Hne. simpl.
    apply filter_elem. split; [done|]. unfold user_matches.
    rewrite Hs, includes_refl. by rewrite !orb_true_r.
Qed.

End ReportFilter.

Lemma report_search_witness :
  Reports.mkUserBreakdown 42 (Some (str "Ann")) None None None
  ∈ Reports.filterUsers (H := Dashboard.ascii_case) (str " 42 ")
      [Reports.mkUserBreakdown 7 (Some (str "Bob")) None None None;
       Reports.mkUserBreakdown 42 (Some (str "Ann")) None None None].
Proof.
  apply (proj2 (report_search (H := Dashboard.ascii_case) (str " 42 ")
                  [Reports.mkUserBreakdown 7 (Some (str "Bob")) None None None;
                   Reports.mkUserBreakdown 42 (Some (str "Ann")) None None
                     None])).
  - apply list_elem_of_further, list_elem_of_here.
  - reflexivity.
  - reflexivity.
Defined.

Section RewardWithoutFigure.

Import TransactionRows.
Context {number : Type} `{JSNumber number}.

Lemma match_here_needs_word (s f : list N) :
  match_here s = Some f -> startsWith s (str "Reward:") = true.
Proof.
  unfold match_here. by destruct (startsWith s (str "Reward:")).
Qed.

Lemma match_reward_needs_word (d : list N) :
  includes d (str "Reward:") = false -> match_reward d = None.
Proof.
  induction d as [|c d IH]; intros Hno.
  - done.
  - simpl in Hno. apply orb_false_iff in Hno as [Hstart Hrest].
    simpl match_reward.
    destruct (match_here (c :: d)) as [f|] eqn:Hhere; [|by apply IH].
    apply match_here_needs_word in Hhere. simpl in Hhere. congruence.
Qed.

(** X16: a row of type ADDED whose description is marked
    "Weekly Sale Reward" but does not contain [Reward:] (the word without
    the colon, say) is shown as 0, whatever amount is stored for it and
    whatever the other rows are (for an engine in which 0 > 0 is false). *)
Theorem reward_without_figure_shows_zero (txs : list (Transaction number))
    (i : nat) (t : Transaction number) (d : list N) :
  num_positive num_zero = false ->
  transaction_type t = str "ADDED" ->
  description t = Some d ->
  includes d (str "Weekly Sale Reward") = true ->
  includes d (str "Reward:") = false ->
  displayAmount txs i t = num_zero.
Proof.
  intros Hzero Hty Hd Hmark Hword.
  unfold displayAmount, is_reward_row, reward_text. rewrite Hty, Hd, Hmark.
  rewrite (match_reward_needs_word d Hword).
  assert (Htruthy : truthy d = true).
  { destruct d; [by vm_compute in Hmark | done]. }
  rewrite Htruthy. unfold jsstring_eqb. rewrite bool_decide_eq_true_2 by done.
  simpl. by rewrite Hzero.
Qed.

End RewardWithoutFigure.

Lemma reward_without_figure_shows_zero_witness :
  TransactionRows.displayAmount (H := TransactionRows.exact)
    [TransactionRows.row 1 "ADDED" "Weekly Sale Reward pending"
       "2024-03-18T09:30:00Z" 7] 0
    (TransactionRows.row 1 "ADDED" "Weekly Sale Reward pending"
       "2024-03-18T09:30:00Z" 7)
  = TransactionRows.Rat 0.
Proof.
  apply (reward_without_figure_shows_zero (H := TransactionRows.exact) _ _ _
           (str "Weekly Sale Reward pending"));
    reflexivity.
Defined.
